(** * OKR tracker: the state/computation engine of [app.js]

    A shallow embedding of the engine functions of [src/app.js] (the
    extended variant with confidence levels, history and snapshots, from
    [const LOCALSTORAGE_DATA_KEY] onwards): progress calculation, weight
    balancing, the capped history log, the snapshot recorder and the
    mutating operations on Objectives and Key Results.

    Conventions of the embedding.
    - The module-level [data] and [fileHandle] variables become the
      [World] that every operation threads through a small state and
      exception monad [M].
    - Integer-valued fields ([weight], [target], [current], [year]) are
      [Z]; the numeric form fields reach the engine through [parseInt] and
      are taken here as the integer it returns.
    - A JavaScript division can leave the integers, so progress values
      live in [number]: the finite binary64 values, held as the rationals
      they denote, with [NaN] and the two infinities.  [+], [*] and [/]
      round their exact result to the nearest binary64 value, ties to
      even, as IEEE 754 prescribes ([round_binary64]); the two zeros are
      not told apart.
    - [generateId()] and [new Date()] read the environment; they are the
      section variables [genId] and [isoNow], indexed by the number of
      environment reads made so far ([clock]).
    - Rendering and persistence ([renderObjectives], [updateDashboardCharts],
      [saveToFile]) never write [data]; they are kept as no-ops so that the
      operations read like the source. *)

From Stdlib Require Import ZArith QArith Qround Lia Ascii String.
From stdpp Require Import gmap strings list pretty.

Open Scope Z_scope.

(** ** JavaScript numbers, as far as the engine uses them *)

Module Number.

Inductive number : Type :=
| Num (q : Q)
| NaN
| Infinity
| NegInfinity.

Definition ofZ (z : Z) : number := Num (inject_Z z).

Definition Qsign (q : Q) : Z := Z.sgn (Qnum q).

Definition sign (a : number) : Z :=
  match a with
  | Num q => Qsign q
  | Infinity => 1
  | NegInfinity => -1
  | NaN => 0
  end.

(** The infinite (or undefined) result carrying sign [s]. *)
Definition signed_infinity (s : Z) : number :=
  if 0 <? s then Infinity else if s <? 0 then NegInfinity else NaN.

(** [floor (log2 (a / d))], for positive [a] and [d]. *)
Definition binade (a d : Z) : Z :=
  let e := Z.log2 a - Z.log2 d in
  if (if 0 <=? e then a <? d * 2 ^ e else a * 2 ^ (- e) <? d) then e - 1 else e.

(** [num / den] rounded to the nearest integer, a tie to the even one
    ([0 <= num], [0 < den]). *)
Definition nearest_even (num den : Z) : Z :=
  let k := num / den in
  match 2 * (num mod den) ?= den with
  | Lt => k
  | Gt => k + 1
  | Eq => if Z.even k then k else k + 1
  end.

(** The binary64 value nearest to the rational [q], a tie going to the even
    significand (the rounding of every IEEE 754 operation): 53 bits of
    significand in the binade of [q], the spacing of the subnormal values
    [2 ^ -1074] below [2 ^ -1022], an infinity from [2 ^ 1024] on. *)
Definition round_binary64 (q : Q) : number :=
  let n := Qnum q in
  let d := Z.pos (Qden q) in
  if n =? 0 then Num 0
  else
    let a := Z.abs n in
    let s := Z.max (binade a d) (-1022) - 52 in
    if 0 <=? s then
      let m := nearest_even a (d * 2 ^ s) in
      if 2 ^ 1024 <=? m * 2 ^ s then signed_infinity (Z.sgn n)
      else Num (inject_Z (Z.sgn n * m * 2 ^ s))
    else
      let m := nearest_even (a * 2 ^ (- s)) d in
      Num (Qred (Z.sgn n * m # Z.to_pos (2 ^ (- s)))).

(** [a + b] *)
Definition add (a b : number) : number :=
  match a, b with
  | NaN, _ | _, NaN => NaN
  | Num x, Num y => round_binary64 (x + y)
  | Infinity, NegInfinity | NegInfinity, Infinity => NaN
  | Infinity, _ | _, Infinity => Infinity
  | NegInfinity, _ | _, NegInfinity => NegInfinity
  end.

(** [a * b] *)
Definition mul (a b : number) : number :=
  match a, b with
  | NaN, _ | _, NaN => NaN
  | Num x, Num y => round_binary64 (x * y)
  | _, _ => signed_infinity (sign a * sign b)
  end.

(** [a / b]; every zero is taken as [+0], so [0/0] is [NaN] and [x/0]
    is the infinity with the sign of [x]. *)
Definition div (a b : number) : number :=
  match a, b with
  | NaN, _ | _, NaN => NaN
  | Num x, Num y =>
      if Qeq_bool y 0 then signed_infinity (Qsign x) else round_binary64 (x / y)
  | Num _, _ => Num 0
  | _, Num y => signed_infinity (sign a * (if Qeq_bool y 0 then 1 else Qsign y))
  | _, _ => NaN
  end.

(** [Math.round]: nearest integer, halves towards [+Infinity]. *)
Definition Math_round (a : number) : number :=
  match a with
  | Num q => ofZ (Qfloor (q + (1 # 2)))
  | _ => a
  end.

(** [Math.min(a, b)] *)
Definition Math_min (a b : number) : number :=
  match a, b with
  | NaN, _ | _, NaN => NaN
  | NegInfinity, _ | _, NegInfinity => NegInfinity
  | Infinity, c | c, Infinity => c
  | Num x, Num y => if Qle_bool x y then Num x else Num y
  end.

(** [Math.max(a, b)] *)
Definition Math_max (a b : number) : number :=
  match a, b with
  | NaN, _ | _, NaN => NaN
  | Infinity, _ | _, Infinity => Infinity
  | NegInfinity, c | c, NegInfinity => c
  | Num x, Num y => if Qle_bool x y then Num y else Num x
  end.



(** [String(a)] for the values the engine formats: results of
    [Math.round], hence integers, or one of the three special values. *)
Definition toString (a : number) : string :=
  match a with
  | Num q => pretty (Qfloor q)
  | NaN => "NaN"
  | Infinity => "Infinity"
  | NegInfinity => "-Infinity"
  end.

End Number.
Import Number.

(** [s || d] on strings: the empty string is falsy. *)
Definition or_else (s d : string) : string :=
  if String.eqb s "" then d else s.

(** ** Data model *)

Record KeyResult : Type := mkKeyResult {
  kr_id : string;
  kr_title : string;
  kr_target : Z;
  kr_current : Z;
  kr_startDate : string;
  kr_targetDate : string;
  kr_weight : Z;
  kr_status : string;
  kr_confidence : string;
  kr_lastCheckin : string;
  kr_evidence : string;
  kr_comments : string;
  kr_createdAt : string
}.

(** [keyResults] is [None] when the property is absent ([undefined]), which
    the source guards against with [!obj.keyResults] in most places. *)
Record Objective : Type := mkObjective {
  id : string;
  group : string;
  year : Z;
  quarter : string;
  title : string;
  purpose : string;
  startDate : string;
  targetDate : string;
  weight : Z;
  lastCheckin : string;
  keyResults : option (list KeyResult);
  createdAt : string
}.

(** The payload of a progress snapshot: two nested objects keyed by id. *)
Record KRSnapshot : Type := mkKRSnapshot {
  ks_title : string;
  ks_progress : number;
  ks_current : Z;
  ks_target : Z
}.

Record ObjectiveSnapshot : Type := mkObjectiveSnapshot {
  os_title : string;
  os_group : string;
  os_progress : number;
  os_keyResults : gmap string KRSnapshot
}.

Record Snapshot : Type := mkSnapshot {
  snap_timestamp : string;
  snap_objectives : gmap string ObjectiveSnapshot
}.

(** A [from]/[to] value of a field diff. *)
Inductive value : Type :=
| VStr (s : string)
| VNum (n : Z).

(** The [changes] object of a history entry. *)
Inductive Changes : Type :=
| Created                                           (* { created: true } *)
| Deleted                                           (* { deleted: true } *)
| Diff (fields : list (string * (value * value)))   (* { field: {from, to} } *)
| ProgressChange (from to : string) (delta : Z)     (* { progress: {from, to, delta} } *)
| SnapshotPayload (snapshot : Snapshot).            (* { snapshot: snapshot } *)

Record HistoryEntry : Type := mkHistoryEntry {
  h_id : string;
  h_timestamp : string;
  h_type : string;
  h_itemType : string;
  h_itemId : string;
  h_itemTitle : string;
  h_changes : Changes;
  h_group : option string
}.

Record Data : Type := mkData {
  objectives : list Objective;
  history : list HistoryEntry
}.

Record World : Type := mkWorld {
  fileHandle : bool;      (* is [fileHandle] non-null? *)
  data : Data;
  clock : nat             (* environment reads made so far *)
}.

(** Field assignments. *)
Definition set_weight (w : Z) (o : Objective) : Objective :=
  mkObjective (id o) (group o) (year o) (quarter o) (title o) (purpose o)
    (startDate o) (targetDate o) w (lastCheckin o) (keyResults o) (createdAt o).

Definition set_keyResults (krs : option (list KeyResult)) (o : Objective) : Objective :=
  mkObjective (id o) (group o) (year o) (quarter o) (title o) (purpose o)
    (startDate o) (targetDate o) (weight o) (lastCheckin o) krs (createdAt o).

Definition set_kr_weight (w : Z) (k : KeyResult) : KeyResult :=
  mkKeyResult (kr_id k) (kr_title k) (kr_target k) (kr_current k) (kr_startDate k)
    (kr_targetDate k) w (kr_status k) (kr_confidence k) (kr_lastCheckin k)
    (kr_evidence k) (kr_comments k) (kr_createdAt k).

Definition set_kr_current (c : Z) (k : KeyResult) : KeyResult :=
  mkKeyResult (kr_id k) (kr_title k) (kr_target k) c (kr_startDate k)
    (kr_targetDate k) (kr_weight k) (kr_status k) (kr_confidence k) (kr_lastCheckin k)
    (kr_evidence k) (kr_comments k) (kr_createdAt k).

(** ** Arrays of shared objects

    [find] returns a reference to the first matching element, and the
    assignments that follow mutate that element in place. *)
Fixpoint mutate_first {A : Type} (p : A -> bool) (f : A -> A) (l : list A) : list A :=
  match l with
  | [] => []
  | x :: r => if p x then f x :: r else x :: mutate_first p f r
  end.

(** [others = l.filter(p); others.forEach((x, index) => ...)]: the filtered
    array shares its elements with [l], so the loop body mutates the
    elements of [l] that satisfy [p], [index] counting only those. *)
Fixpoint forEach_filtered {A : Type} (p : A -> bool) (f : nat -> A -> A)
    (index : nat) (l : list A) : list A :=
  match l with
  | [] => []
  | x :: r =>
      if p x then f index x :: forEach_filtered p f (S index) r
      else x :: forEach_filtered p f index r
  end.

(** ** Progress calculator *)

(** [(kr.current / kr.target) * 100] *)
Definition ratio100 (current target : Z) : number :=
  mul (div (ofZ current) (ofZ target)) (ofZ 100).

(** [Math.min(100, Math.round((current / target) * 100))], the expression
    [recordProgressSnapshot] and [updateKR] use for one Key Result. *)
Definition krProgress (current target : Z) : number :=
  Math_min (ofZ 100) (Math_round (ratio100 current target)).

Definition calculateProgress (objective : Objective) : number :=
  match keyResults objective with
  | None => ofZ 0
  | Some krs =>
      if (length krs =? 0)%nat then ofZ 0
      else
        let total :=
          fold_left (fun sum kr => add sum (ratio100 (kr_current kr) (kr_target kr)))
            krs (ofZ 0) in
        Math_min (ofZ 100) (Math_round (div total (ofZ (Z.of_nat (length krs)))))
  end.



(** ** The state and exception monad of the engine *)

Inductive Outcome (A : Type) : Type :=
| Return (a : A) (w : World)
| Throw (w : World).     (* an uncaught [TypeError]; [w] is the state reached *)
Arguments Return {A} a w.
Arguments Throw {A} w.

Definition M (A : Type) : Type := World -> Outcome A.

Definition ret {A : Type} (a : A) : M A := fun w => Return a w.

Definition bind {A B : Type} (c : M A) (k : A -> M B) : M B :=
  fun w =>
    match c w with
    | Return a w' => k a w'
    | Throw w' => Throw w'
    end.

Notation "x <- c1 ;; c2" := (bind c1 (fun x => c2))
  (at level 100, c1 at next level, right associativity).
Notation "c1 ;; c2" := (bind c1 (fun _ => c2))
  (at level 100, right associativity).

Definition throwTypeError {A : Type} : M A := fun w => Throw w.

Definition gets {A : Type} (f : World -> A) : M A := fun w => Return (f w) w.

Definition get_objectives : M (list Objective) := gets (fun w => objectives (data w)).

Definition modify_objectives (f : list Objective -> list Objective) : M unit :=
  fun w =>
    Return tt (mkWorld (fileHandle w)
                 (mkData (f (objectives (data w))) (history (data w))) (clock w)).

Definition modify_history (f : list HistoryEntry -> list HistoryEntry) : M unit :=
  fun w =>
    Return tt (mkWorld (fileHandle w)
                 (mkData (objectives (data w)) (f (history (data w)))) (clock w)).

(** [if (c) { body }] *)
Definition when (c : bool) (body : M unit) : M unit := if c then body else ret tt.

(** [c] runs from [w] to [w'] without throwing. *)
Definition runs_to (c : M unit) (w w' : World) : Prop := c w = Return tt w'.

(** The state an operation leaves behind, whether it returned or threw. *)
Definition exec {A : Type} (c : M A) (w : World) : World :=
  match c w with
  | Return _ w' => w'
  | Throw w' => w'
  end.

Definition throws {A : Type} (c : M A) (w : World) : bool :=
  match c w with
  | Return _ _ => false
  | Throw _ => true
  end.

(** Mutations through the reference returned by
    [data.objectives.find(o => o.id === objectiveId)] and by
    [objective.keyResults.find(k => k.id === krId)]. *)
Definition modify_objective (objectiveId : string) (f : Objective -> Objective) : M unit :=
  modify_objectives (mutate_first (fun o => String.eqb (id o) objectiveId) f).

Definition modify_kr (objectiveId krId : string) (f : KeyResult -> KeyResult) : M unit :=
  modify_objective objectiveId
    (fun o => set_keyResults
                (option_map (mutate_first (fun k => String.eqb (kr_id k) krId) f)
                   (keyResults o)) o).

(** Collaborators outside the engine; none of them writes [data]. *)
Definition saveToFile : M unit := ret tt.
Definition renderObjectives : M unit := ret tt.
Definition updateDashboardCharts : M unit := ret tt.
Definition alert (message : string) : M unit := ret tt.

(** The text before the first ['T'] of an ISO timestamp: [.split('T')[0]]. *)
Fixpoint split_T_0 (s : string) : string :=
  match s with
  | EmptyString => EmptyString
  | String c r => if Ascii.eqb c "T"%char then EmptyString else String c (split_T_0 r)
  end.

(** The form data handed to [saveObjective]. *)
Record ObjectiveForm : Type := mkObjectiveForm {
  f_editId : option string;     (* [value || null] *)
  f_group : string;
  f_year : Z;
  f_quarter : string;
  f_title : string;
  f_purpose : string;
  f_startDate : string;
  f_targetDate : string;
  f_weight : Z;
  f_lastCheckin : string
}.

(** Truthiness of an id that is a string or [null]. *)
Definition truthy (s : option string) : option string :=
  match s with
  | Some x => if String.eqb x "" then None else Some x
  | None => None
  end.

(** One [if (old !== new) changes.field = { from, to }] statement. *)
Definition track_str (field old new from to : string)
    (changes : list (string * (value * value))) : list (string * (value * value)) :=
  if String.eqb old new then changes else changes ++ [(field, (VStr from, VStr to))].

Definition track_num (field : string) (old new : Z)
    (changes : list (string * (value * value))) : list (string * (value * value)) :=
  if old =? new then changes else changes ++ [(field, (VNum old, VNum new))].

Definition is_nil {A : Type} (l : list A) : bool :=
  match l with [] => true | _ => false end.

(** [history.unshift(entry); if (history.length > 1000) history =
    history.slice(0, 1000)], the two statements that end
    [addHistoryEntry]. *)
Definition unshift_capped (entry : HistoryEntry) (h : list HistoryEntry)
    : list HistoryEntry :=
  let h := entry :: h in
  if (1000 <? length h)%nat then take 1000 h else h.
Arguments unshift_capped : simpl never.

(** ** The engine *)

Section Engine.

(** The environment: the [n]-th read yields [genId n] from [generateId()]
    and [isoNow n] from [new Date().toISOString()]. *)
Variable genId : nat -> string.
Variable isoNow : nat -> string.

Definition tick (w : World) : World :=
  mkWorld (fileHandle w) (data w) (S (clock w)).

Definition generateId : M string :=
  fun w => Return (genId (clock w)) (tick w).

Definition Date_toISOString : M string :=
  fun w => Return (isoNow (clock w)) (tick w).

(** *** History log *)

Definition addHistoryEntry (type itemType itemId itemTitle : string)
    (changes : Changes) (group : option string) : M unit :=
  i <- generateId;;
  timestamp <- Date_toISOString;;
  let entry := mkHistoryEntry i timestamp type itemType itemId itemTitle changes group in
  modify_history (unshift_capped entry).

(** *** Snapshot recorder *)

Definition snapshot_of_kr (kr : KeyResult) : KRSnapshot :=
  mkKRSnapshot (kr_title kr) (krProgress (kr_current kr) (kr_target kr))
    (kr_current kr) (kr_target kr).

Definition snapshot_of_objective (obj : Objective) : ObjectiveSnapshot :=
  mkObjectiveSnapshot (title obj) (or_else (group obj) "Personal")
    (calculateProgress obj)
    (match keyResults obj with
     | Some krs => fold_left (fun m kr => <[kr_id kr := snapshot_of_kr kr]> m) krs ∅
     | None => ∅
     end).

Definition recordProgressSnapshot : M unit :=
  objs <- get_objectives;;
  if (length objs =? 0)%nat then ret tt
  else
    timestamp <- Date_toISOString;;
    let snapshot :=
      mkSnapshot timestamp
        (fold_left (fun m obj => <[id obj := snapshot_of_objective obj]> m) objs ∅) in
    addHistoryEntry "progress-snapshot" "system" "all" "Progress Snapshot"
      (SnapshotPayload snapshot) None.

(** *** Weight balancer *)

(** [equalWeight + (index < remainder ? 1 : 0)] *)
Definition share (equalWeight remainder : Z) (index : nat) : Z :=
  equalWeight + (if Z.of_nat index <? remainder then 1 else 0).

Definition autoBalanceObjectiveWeights : M unit :=
  objs <- get_objectives;;
  if (length objs =? 0)%nat then ret tt
  else
    let equalWeight := 100 / Z.of_nat (length objs) in       (* Math.floor *)
    let remainder := 100 - equalWeight * Z.of_nat (length objs) in
    modify_objectives
      (imap (fun index obj => set_weight (share equalWeight remainder index) obj)).

Definition balanceOtherObjectives (editedId : string) (manualWeight : Z) : M unit :=
  objs <- get_objectives;;
  if (length objs <=? 1)%nat then ret tt
  else
    let remainingWeight := 100 - manualWeight in
    let is_other := fun o => negb (String.eqb (id o) editedId) in
    let others := List.filter is_other objs in
    if (length others =? 0)%nat then ret tt
    else
      let equalWeight := remainingWeight / Z.of_nat (length others) in
      let remainder := remainingWeight - equalWeight * Z.of_nat (length others) in
      modify_objectives
        (forEach_filtered is_other
           (fun index obj => set_weight (share equalWeight remainder index) obj) 0).

Definition balanceObjectiveWeights : M unit :=
  autoBalanceObjectiveWeights;;
  saveToFile;;
  renderObjectives.

Definition autoBalanceKRWeights (objectiveId : string) : M unit :=
  objs <- get_objectives;;
  match List.find (fun o => String.eqb (id o) objectiveId) objs with
  | None => ret tt
  | Some obj =>
      match keyResults obj with
      | None => ret tt
      | Some krs =>
          if (length krs =? 0)%nat then ret tt
          else
            let equalWeight := 100 / Z.of_nat (length krs) in
            let remainder := 100 - equalWeight * Z.of_nat (length krs) in
            modify_objective objectiveId
              (set_keyResults
                 (Some (imap (fun index kr =>
                                set_kr_weight (share equalWeight remainder index) kr) krs)))
      end
  end.

Definition balanceOtherKRs (objectiveId editedKRId : string) (manualWeight : Z) : M unit :=
  objs <- get_objectives;;
  match List.find (fun o => String.eqb (id o) objectiveId) objs with
  | None => ret tt
  | Some obj =>
      match keyResults obj with
      | None => ret tt
      | Some krs =>
          if (length krs <=? 1)%nat then ret tt
          else
            let remainingWeight := 100 - manualWeight in
            let is_other := fun kr => negb (String.eqb (kr_id kr) editedKRId) in
            let others := List.filter is_other krs in
            if (length others =? 0)%nat then ret tt
            else
              let equalWeight := remainingWeight / Z.of_nat (length others) in
              let remainder := remainingWeight - equalWeight * Z.of_nat (length others) in
              modify_objective objectiveId
                (set_keyResults
                   (Some (forEach_filtered is_other
                            (fun index kr =>
                               set_kr_weight (share equalWeight remainder index) kr)
                            0 krs)))
      end
  end.

Definition balanceKRWeights (objectiveId : string) : M unit :=
  autoBalanceKRWeights objectiveId;;
  saveToFile;;
  renderObjectives.

(** *** Objectives *)

Definition objective_changes (obj : Objective) (formData : ObjectiveForm)
    : list (string * (value * value)) :=
  let changes := [] in
  let changes := track_str "title" (title obj) (f_title formData)
                   (title obj) (f_title formData) changes in
  let changes := track_str "group" (group obj) (f_group formData)
                   (group obj) (f_group formData) changes in
  let changes := track_num "year" (year obj) (f_year formData) changes in
  let changes := track_str "quarter" (quarter obj) (f_quarter formData)
                   (quarter obj) (f_quarter formData) changes in
  let changes := track_str "purpose" (purpose obj) (f_purpose formData)
                   (or_else (purpose obj) "") (or_else (f_purpose formData) "") changes in
  let changes := track_str "startDate" (startDate obj) (f_startDate formData)
                   (or_else (startDate obj) "") (or_else (f_startDate formData) "") changes in
  let changes := track_str "targetDate" (targetDate obj) (f_targetDate formData)
                   (or_else (targetDate obj) "") (or_else (f_targetDate formData) "") changes in
  let changes := track_num "weight" (weight obj) (f_weight formData) changes in
  let changes := track_str "lastCheckin" (lastCheckin obj) (f_lastCheckin formData)
                   (or_else (lastCheckin obj) "") (or_else (f_lastCheckin formData) "")
                   changes in
  changes.

(** The assignments [obj.group = formData.group; ...; obj.lastCheckin = ...]. *)
Definition assign_objective (formData : ObjectiveForm) (obj : Objective) : Objective :=
  mkObjective (id obj) (f_group formData) (f_year formData) (f_quarter formData)
    (f_title formData) (f_purpose formData) (f_startDate formData)
    (f_targetDate formData) (f_weight formData) (f_lastCheckin formData)
    (keyResults obj) (createdAt obj).

Definition saveObjective (formData : ObjectiveForm) : M unit :=
  fh <- gets fileHandle;;
  if negb fh then alert "Please open or create a file first"
  else
    match truthy (f_editId formData) with
    | Some editId =>
        (* Update existing *)
        objs <- get_objectives;;
        match List.find (fun o => String.eqb (id o) editId) objs with
        | Some obj =>
            let oldWeight := weight obj in
            let changes := objective_changes obj formData in
            modify_objective editId (assign_objective formData);;
            when (negb (is_nil changes))
              (addHistoryEntry "updated" "objective" editId (f_title formData)
                 (Diff changes) (Some (f_group formData)));;
            when (negb (oldWeight =? f_weight formData))
              (balanceOtherObjectives editId (f_weight formData))
        | None => ret tt
        end
    | None =>
        (* Add new *)
        now <- Date_toISOString;;
        let today := split_T_0 now in
        newId <- generateId;;
        modify_objectives (fun objs => objs ++
          [mkObjective newId (f_group formData) (f_year formData) (f_quarter formData)
             (f_title formData) (f_purpose formData) (f_startDate formData)
             (f_targetDate formData) 0 (f_lastCheckin formData) (Some []) today]);;
        autoBalanceObjectiveWeights;;
        addHistoryEntry "created" "objective" newId (f_title formData)
          Created (Some (f_group formData))
    end;;
    recordProgressSnapshot;;
    saveToFile;;
    updateDashboardCharts;;
    renderObjectives.

(** [confirmed] is the answer of the [confirm] dialog. *)
Definition deleteObjective (confirmed : bool) (objectiveId : string) : M unit :=
  if negb confirmed then ret tt
  else
    objs <- get_objectives;;
    match List.find (fun o => String.eqb (id o) objectiveId) objs with
    | Some obj =>
        addHistoryEntry "deleted" "objective" objectiveId (title obj)
          Deleted (Some (group obj))
    | None => ret tt
    end;;
    modify_objectives (List.filter (fun obj => negb (String.eqb (id obj) objectiveId)));;
    recordProgressSnapshot;;
    saveToFile;;
    updateDashboardCharts;;
    renderObjectives.

(** *** Key Results *)

(** [target] and [weight] stand for [parseInt(target)] and
    [parseInt(weight)]. *)
Definition kr_changes (kr : KeyResult) (title : string) (target : Z)
    (startDate targetDate : string) (weight : Z)
    (status confidence lastCheckin evidence comments : string)
    : list (string * (value * value)) :=
  let changes := [] in
  let changes := track_str "title" (kr_title kr) title (kr_title kr) title changes in
  let changes := track_str "status" (kr_status kr) status (kr_status kr) status changes in
  let changes := track_str "confidence" (kr_confidence kr) confidence
                   (or_else (kr_confidence kr) "Medium") confidence changes in
  let changes := track_num "target" (kr_target kr) target changes in
  let changes := track_str "startDate" (kr_startDate kr) startDate
                   (or_else (kr_startDate kr) "") (or_else startDate "") changes in
  let changes := track_str "targetDate" (kr_targetDate kr) targetDate
                   (or_else (kr_targetDate kr) "") (or_else targetDate "") changes in
  let changes := track_num "weight" (kr_weight kr) weight changes in
  let changes := track_str "lastCheckin" (kr_lastCheckin kr) lastCheckin
                   (or_else (kr_lastCheckin kr) "") (or_else lastCheckin "") changes in
  let changes := track_str "evidence" (kr_evidence kr) evidence
                   (or_else (kr_evidence kr) "") (or_else evidence "") changes in
  let changes := track_str "comments" (kr_comments kr) comments
                   (or_else (kr_comments kr) "") (or_else comments "") changes in
  changes.

(** The assignments [kr.title = title; ...; kr.comments = comments], with
    [kr.current = Math.min(kr.current, parseInt(target))] among them. *)
Definition assign_kr (title : string) (target : Z) (startDate targetDate : string)
    (weight : Z) (status confidence lastCheckin evidence comments : string)
    (kr : KeyResult) : KeyResult :=
  mkKeyResult (kr_id kr) title target (Z.min (kr_current kr) target) startDate
    targetDate weight status confidence lastCheckin evidence comments (kr_createdAt kr).

Definition saveKeyResult (objectiveId title : string) (target : Z)
    (startDate targetDate : string) (weight : Z)
    (status confidence lastCheckin evidence comments : string)
    (editId : option string) : M unit :=
  objs <- get_objectives;;
  match List.find (fun o => String.eqb (id o) objectiveId) objs with
  | Some objective =>
      (* if (!objective.keyResults) objective.keyResults = []; *)
      let keyResults0 := default [] (keyResults objective) in
      modify_objective objectiveId (set_keyResults (Some keyResults0));;
      match truthy editId with
      | Some editId =>
          (* Update existing *)
          match List.find (fun k => String.eqb (kr_id k) editId) keyResults0 with
          | Some kr =>
              let oldWeight := kr_weight kr in
              let changes := kr_changes kr title target startDate targetDate weight
                               status confidence lastCheckin evidence comments in
              modify_kr objectiveId editId
                (assign_kr title target startDate targetDate weight status confidence
                   lastCheckin evidence comments);;
              when (negb (is_nil changes))
                (addHistoryEntry "updated" "keyresult" editId title (Diff changes)
                   (Some (group objective)));;
              when (negb (oldWeight =? weight))
                (balanceOtherKRs objectiveId editId weight)
          | None => ret tt
          end
      | None =>
          (* Add new *)
          now <- Date_toISOString;;
          let today := split_T_0 now in
          newKrId <- generateId;;
          modify_objective objectiveId (fun o =>
            set_keyResults
              (Some (default [] (keyResults o) ++
                 [mkKeyResult newKrId title target 0 startDate targetDate 0 status
                    confidence lastCheckin evidence comments today])) o);;
          autoBalanceKRWeights objectiveId;;
          addHistoryEntry "created" "keyresult" newKrId title Created
            (Some (group objective))
      end;;
      recordProgressSnapshot;;
      saveToFile;;
      renderObjectives;;
      updateDashboardCharts
  | None => ret tt
  end.

(** The template string [`${current}/${target} (${progress}%)`]. *)
Definition progress_label (current target : Z) (progress : number) : string :=
  (pretty current ++ "/" ++ pretty target ++ " (" ++ toString progress ++ "%)")%string.

Definition updateKR (objectiveId krId : string) (delta : Z) : M unit :=
  objs <- get_objectives;;
  match List.find (fun o => String.eqb (id o) objectiveId) objs with
  | Some objective =>
      match keyResults objective with
      | None => throwTypeError       (* objective.keyResults.find on undefined *)
      | Some krs =>
          match List.find (fun k => String.eqb (kr_id k) krId) krs with
          | Some kr =>
              let oldCurrent := kr_current kr in
              let oldProgress := krProgress oldCurrent (kr_target kr) in
              let newCurrent := Z.max 0 (Z.min (kr_target kr) (kr_current kr + delta)) in
              modify_kr objectiveId krId (set_kr_current newCurrent);;
              let newProgress := krProgress newCurrent (kr_target kr) in
              when (negb (oldCurrent =? newCurrent))
                (addHistoryEntry "progress" "keyresult" krId (kr_title kr)
                   (ProgressChange
                      (progress_label oldCurrent (kr_target kr) oldProgress)
                      (progress_label newCurrent (kr_target kr) newProgress)
                      delta)
                   (Some (group objective)));;
              recordProgressSnapshot;;
              saveToFile;;
              renderObjectives
          | None => ret tt
          end
      end
  | None => ret tt
  end.

Definition deleteKR (objectiveId krId : string) : M unit :=
  objs <- get_objectives;;
  match List.find (fun o => String.eqb (id o) objectiveId) objs with
  | Some objective =>
      match keyResults objective with
      | None => throwTypeError       (* objective.keyResults.find on undefined *)
      | Some krs =>
          match List.find (fun k => String.eqb (kr_id k) krId) krs with
          | Some kr =>
              addHistoryEntry "deleted" "keyresult" krId (kr_title kr)
                Deleted (Some (group objective))
          | None => ret tt
          end;;
          modify_objective objectiveId
            (set_keyResults
               (Some (List.filter (fun k => negb (String.eqb (kr_id k) krId)) krs)));;
          recordProgressSnapshot;;
          saveToFile;;
          updateDashboardCharts;;
          renderObjectives
      end
  | None => ret tt
  end.

(** *** Sequences of operations

    The mutating entry points of the engine as commands, so that the
    states reachable from a Document can be enumerated by running a list
    of them.  An operation that throws leaves the state it reached. *)

Inductive Op : Type :=
| OpSaveObjective (formData : ObjectiveForm)
| OpDeleteObjective (confirmed : bool) (objectiveId : string)
| OpSaveKeyResult (objectiveId title : string) (target : Z)
    (startDate targetDate : string) (weight : Z)
    (status confidence lastCheckin evidence comments : string)
    (editId : option string)
| OpUpdateKR (objectiveId krId : string) (delta : Z)
| OpDeleteKR (objectiveId krId : string)
| OpBalanceObjectiveWeights
| OpBalanceKRWeights (objectiveId : string).

Definition step (op : Op) : M unit :=
  match op with
  | OpSaveObjective formData => saveObjective formData
  | OpDeleteObjective confirmed objectiveId => deleteObjective confirmed objectiveId
  | OpSaveKeyResult objectiveId title target startDate targetDate weight status
      confidence lastCheckin evidence comments editId =>
      saveKeyResult objectiveId title target startDate targetDate weight status
        confidence lastCheckin evidence comments editId
  | OpUpdateKR objectiveId krId delta => updateKR objectiveId krId delta
  | OpDeleteKR objectiveId krId => deleteKR objectiveId krId
  | OpBalanceObjectiveWeights => balanceObjectiveWeights
  | OpBalanceKRWeights objectiveId => balanceKRWeights objectiveId
  end.

Definition run (ops : list Op) (w : World) : World :=
  fold_left (fun w op => exec (step op) w) ops w.

(** The entry [recordProgressSnapshot] hands to [addHistoryEntry] in
    state [w]: it reads the clock three times (the snapshot's timestamp,
    then the entry's id and timestamp). *)
Definition snapshot_payload (w : World) : Snapshot :=
  mkSnapshot (isoNow (clock w))
    (fold_left (fun m obj => <[id obj := snapshot_of_objective obj]> m)
       (objectives (data w)) ∅).

Definition snapshot_entry (w : World) : HistoryEntry :=
  mkHistoryEntry (genId (S (clock w))) (isoNow (S (S (clock w))))
    "progress-snapshot" "system" "all" "Progress Snapshot"
    (SnapshotPayload (snapshot_payload w)) None.

End Engine.

(** Does the operation supply a non-negative [target]?  Only
    [saveKeyResult] supplies one. *)
Definition target_nonneg (op : Op) : bool :=
  match op with
  | OpSaveKeyResult _ _ target _ _ _ _ _ _ _ _ _ => 0 <=? target
  | _ => true
  end.

(** ** Properties the claims speak about *)

Definition Zsum (l : list Z) : Z := fold_right Z.add 0 l.

(** [0 <= current <= target] for every Key Result of the Document. *)
Definition kr_in_range (kr : KeyResult) : Prop :=
  0 <= kr_current kr <= kr_target kr.

Definition krs_in_range (o : Objective) : Prop :=
  match keyResults o with
  | Some krs => Forall kr_in_range krs
  | None => True
  end.

Definition current_invariant (w : World) : Prop :=
  Forall krs_in_range (objectives (data w)).

(** [c] preserves the invariant, whether it returns or throws. *)
Definition keeps {A : Type} (c : M A) : Prop :=
  forall w, current_invariant w -> current_invariant (exec c w).

(** The Key Results of the Objective that [find] returns for [objectiveId]. *)
Definition keyResults_of (objectiveId : string) (w : World) : option (list KeyResult) :=
  match List.find (fun o => String.eqb (id o) objectiveId) (objectives (data w)) with
  | Some o => keyResults o
  | None => None
  end.

(** The siblings other than the edited one: [x => x.id !== editedId]. *)
Definition is_other_than {A : Type} (getid : A -> string) (editedId : string) (x : A) : bool :=
  negb (String.eqb (getid x) editedId).

(** *** What an operation does to the history log *)

(** [c] returns and leaves the log as it was. *)
Definition silent {A : Type} (c : M A) : Prop :=
  forall w, exists a w', c w = Return a w' /\ history (data w') = history (data w).

(** [c] returns after pushing the entries [logged] (newest first) onto the
    capped log: at most one entry, and never a progress snapshot. *)
Definition logs_one (c : M unit) : Prop :=
  forall w, exists w' logged,
    c w = Return tt w' /\
    (length logged <= 1)%nat /\
    Forall (fun x => h_type x <> "progress-snapshot") logged /\
    history (data w') = fold_right unshift_capped (history (data w)) logged.

(** From [w], [c] returns the state that [recordProgressSnapshot] makes of
    a state [w1] whose log is the log of [w] with the entries [logged]
    pushed onto it: whatever the operation logged itself (at most one
    entry, not a snapshot), the snapshot recorder runs last and once. *)
Definition snapshot_last_at (genId isoNow : nat -> string) (c : M unit) (w : World) : Prop :=
  exists (logged : list HistoryEntry) (w1 : World),
    (length logged <= 1)%nat /\
    Forall (fun x => h_type x <> "progress-snapshot") logged /\
    history (data w1) = fold_right unshift_capped (history (data w)) logged /\
    c w = Return tt (exec (recordProgressSnapshot genId isoNow) w1).

(** The shares the balancer hands out when [n] siblings split [total]:
    [floor(total/n)] each, plus one for the first [total - n*floor(total/n)]. *)
Definition split_evenly (total : Z) (n : nat) : list Z :=
  map (fun i => total / Z.of_nat n
                + (if Z.of_nat i <? total - Z.of_nat n * (total / Z.of_nat n) then 1 else 0))
    (seq 0 n).

(** A number that is not negative: a rational [0 <= q] or [Infinity]. *)
Definition nonneg (a : number) : Prop :=
  a = Infinity \/ exists q, a = Num q /\ (0 <= q)%Q.

(** The progress formulas in words, over the same binary64 operations: the
    mean of a list is its sum, taken from the left, over its length; a Key
    Result's progress as the specification has it is
    [clamp(round(current / target * 100), 0, 100)], and an Objective's is the
    mean of those, rounded and capped at 100. *)
Module Spec.

Definition sum (l : list number) : number := fold_left add l (ofZ 0).

Definition mean (l : list number) : number :=
  div (sum l) (ofZ (Z.of_nat (length l))).

Definition clamp (x lo hi : number) : number := Math_max lo (Math_min hi x).

(** The unrounded, unclamped value [current / target * 100]. *)
Definition raw_ratio (kr : KeyResult) : number :=
  mul (div (ofZ (kr_current kr)) (ofZ (kr_target kr))) (ofZ 100).

Definition keyResultProgress (kr : KeyResult) : number :=
  clamp (Math_round (raw_ratio kr)) (ofZ 0) (ofZ 100).

Definition objectiveProgress (obj : Objective) : number :=
  match keyResults obj with
  | None | Some [] => ofZ 0
  | Some krs => Math_min (ofZ 100) (Math_round (mean (map keyResultProgress krs)))
  end.

End Spec.

(** ** Concrete documents *)

Definition demo_genId (n : nat) : string := ("id" ++ pretty n)%string.
Definition demo_isoNow (n : nat) : string := ("2026-01-01T00:00:00." ++ pretty n ++ "Z")%string.

Definition demo_kr (krId : string) (current target : Z) : KeyResult :=
  mkKeyResult krId krId target current "2026-01-01" "2026-03-31" 0 "on-track" "Medium"
    "" "" "" "2026-01-01".

Definition demo_objective (objectiveId : string) (w : Z) (krs : option (list KeyResult))
    : Objective :=
  mkObjective objectiveId "Team" 2026 "1" objectiveId "" "2026-01-01" "2026-03-31" w ""
    krs "2026-01-01".

Definition demo_form (editId : option string) (title : string) (w : Z) : ObjectiveForm :=
  mkObjectiveForm editId "Team" 2026 "1" title "" "2026-01-01" "2026-03-31" w "".

Definition demo_add_kr (objectiveId title : string) (target : Z) : Op :=
  OpSaveKeyResult objectiveId title target "2026-01-01" "2026-03-31" 100 "on-track"
    "Medium" "" "" "" None.

(** A freshly created file: no Objective, no history. *)
Definition empty_world : World := mkWorld true (mkData [] []) 0.

Definition demo_run (ops : list Op) (w : World) : World := run demo_genId demo_isoNow ops w.

(** Key Results at 50/100 and 30/100. *)
Definition objective_50_30 : Objective :=
  demo_objective "o1" 100 (Some [demo_kr "k1" 50 100; demo_kr "k2" 30 100]).

(** Key Results at 10/64, 10/64 and 30/40: ratios 15.625, 15.625 and 75. *)
Definition objective_dyadic : Objective :=
  demo_objective "o1" 100
    (Some [demo_kr "k1" 10 64; demo_kr "k2" 10 64; demo_kr "k3" 30 40]).

(** Key Results at 57/100 and 58/100. *)
Definition objective_57_58 : Objective :=
  demo_objective "o1" 100 (Some [demo_kr "k1" 57 100; demo_kr "k2" 58 100]).

(** One Objective, then one Key Result added to it with target 0. *)
Definition world_zero_target : World :=
  demo_run [OpSaveObjective (demo_form None "Ship" 100); demo_add_kr "id1" "Defects" 0]
    empty_world.

(** One Objective. *)
Definition world_one : World :=
  demo_run [OpSaveObjective (demo_form None "Ship" 100)] empty_world.

(** Two Objectives, balanced 50/50 on creation. *)
Definition world_two : World :=
  demo_run [OpSaveObjective (demo_form None "Ship" 100);
            OpSaveObjective (demo_form None "Hire" 100)] empty_world.

(** Three Objectives, balanced 34/33/33 on creation. *)
Definition world_three : World :=
  demo_run [OpSaveObjective (demo_form None "Ship" 100);
            OpSaveObjective (demo_form None "Hire" 100);
            OpSaveObjective (demo_form None "Learn" 100)] empty_world.

(** Three Objectives whose weights were never balanced. *)
Definition world_unbalanced : World :=
  mkWorld true
    (mkData [demo_objective "a" 10 (Some []); demo_objective "b" 20 (Some []);
             demo_objective "c" 70 (Some [])] []) 0.

(** One Objective with one Key Result, target 100, current 0. *)
Definition world_kr : World :=
  demo_run [OpSaveObjective (demo_form None "Ship" 100); demo_add_kr "id1" "Tests" 100]
    empty_world.

(** ** Further properties of the operations *)

(** Whether it returns or throws, [c] leaves the log of [w] with at most [n]
    entries [new] (newest first) pushed onto it through the cap: nothing
    older is altered or reordered. *)
Definition appends_upto (n : nat) {A : Type} (c : M A) : Prop :=
  forall w, exists new,
    (length new <= n)%nat /\
    history (data (exec c w)) = fold_right unshift_capped (history (data w)) new.

(** * Theorems *)

(** ** Arithmetic of the shares *)

Lemma share_eq_split (total : Z) (n : nat) :
  map (share (total / Z.of_nat n) (total - total / Z.of_nat n * Z.of_nat n)) (seq 0 n)
  = split_evenly total n.
Proof.
  unfold split_evenly, share. apply map_ext. intros i.
  replace (Z.of_nat n * (total / Z.of_nat n)) with (total / Z.of_nat n * Z.of_nat n)
    by lia.
  reflexivity.
Qed.

Lemma Zsum_share_seq (b r : Z) (m start : nat) :
  Zsum (map (share b r) (seq start m))
  = Z.of_nat m * b + Z.max 0 (Z.min (Z.of_nat (start + m)) r - Z.of_nat start).
Proof.
  revert start. induction m as [|m IH]; intros start; simpl.
  - lia.
  - rewrite IH. unfold share.
    destruct (Z.ltb_spec (Z.of_nat start) r); lia.
Qed.

Lemma remainder_range (total : Z) (n : nat) :
  (1 <= n)%nat ->
  0 <= total - total / Z.of_nat n * Z.of_nat n < Z.of_nat n.
Proof.
  intros Hn.
  pose proof (Z.mod_pos_bound total (Z.of_nat n) ltac:(lia)) as Hm.
  rewrite Z.mod_eq in Hm by lia. lia.
Qed.

Lemma Zsum_split_evenly (total : Z) (n : nat) :
  (1 <= n)%nat -> Zsum (split_evenly total n) = total.
Proof.
  intros Hn. rewrite <- share_eq_split, Zsum_share_seq.
  pose proof (remainder_range total n Hn). lia.
Qed.

Lemma split_evenly_spread (total : Z) (n : nat) (a b : Z) :
  In a (split_evenly total n) -> In b (split_evenly total n) -> -1 <= a - b <= 1.
Proof.
  unfold split_evenly. rewrite !in_map_iff.
  intros (i & <- & _) (j & <- & _).
  repeat match goal with |- context [if ?c then _ else _] => destruct c end; lia.
Qed.

(** ** Loops over arrays of shared objects *)

Lemma imap_weights {A : Type} (get : A -> Z) (set : Z -> A -> A) (g : nat -> Z) (l : list A) :
  (forall z x, get (set z x) = z) ->
  map get (imap (fun i x => set (g i) x) l) = map g (seq 0 (length l)).
Proof.
  intros Hgs. revert g. induction l as [|x l IH]; intros g; simpl; [reflexivity|].
  rewrite Hgs. f_equal.
  rewrite <- seq_shift, map_map. apply (IH (fun i => g (S i))).
Qed.

Lemma imap_frame {A : Type} (set : Z -> A -> A) (g : nat -> Z) (l : list A) :
  (forall z z' x, set z (set z' x) = set z x) ->
  map (set 0) (imap (fun i x => set (g i) x) l) = map (set 0) l.
Proof.
  intros Hss. revert g. induction l as [|x l IH]; intros g; simpl; [reflexivity|].
  rewrite Hss. f_equal. apply (IH (fun i => g (S i))).
Qed.

Lemma find_mutate_first {A : Type} (p : A -> bool) (f : A -> A) (l : list A) (x : A) :
  List.find p l = Some x -> p (f x) = true ->
  List.find p (mutate_first p f l) = Some (f x).
Proof.
  induction l as [|y l IH]; simpl; [discriminate|].
  destruct (p y) eqn:Hy.
  - intros [= ->] Hf. simpl. now rewrite Hf.
  - intros Hx Hf. simpl. rewrite Hy. auto.
Qed.

(** ** Equal auto-balance *)

(** C1. Equal auto-balance over [n] sibling Objectives, or over the [n]
    Key Results of one Objective: for [n >= 1] the siblings receive, in
    collection order, [floor(100/n)] each and the first
    [100 - n*floor(100/n)] of them one more, nothing else about them
    changes, the weights sum to exactly 100 and any two differ by at most 1;
    for [n = 0] (no Objective, or no Key Result under the Objective) the
    operation changes nothing. *)
Theorem C1_equal_auto_balance :
  (forall w : World,
      let objs := objectives (data w) in
      let objs' := objectives (data (exec autoBalanceObjectiveWeights w)) in
      (length objs = 0%nat -> exec autoBalanceObjectiveWeights w = w) /\
      ((1 <= length objs)%nat ->
         map weight objs' = split_evenly 100 (length objs) /\
         map (set_weight 0) objs' = map (set_weight 0) objs /\
         Zsum (map weight objs') = 100 /\
         (forall a b, In a (map weight objs') -> In b (map weight objs') ->
                      -1 <= a - b <= 1))) /\
  (forall (w : World) (objectiveId : string),
      (keyResults_of objectiveId w = None \/ keyResults_of objectiveId w = Some [] ->
         exec (autoBalanceKRWeights objectiveId) w = w) /\
      (forall krs,
         keyResults_of objectiveId w = Some krs -> (1 <= length krs)%nat ->
         exists krs',
           keyResults_of objectiveId (exec (autoBalanceKRWeights objectiveId) w) = Some krs' /\
           map kr_weight krs' = split_evenly 100 (length krs) /\
           map (set_kr_weight 0) krs' = map (set_kr_weight 0) krs /\
           Zsum (map kr_weight krs') = 100 /\
           (forall a b, In a (map kr_weight krs') -> In b (map kr_weight krs') ->
                        -1 <= a - b <= 1))).
Proof.
  split.
  - intros [fh [objs h] clk]; cbn.
    unfold autoBalanceObjectiveWeights, exec, bind, get_objectives, gets; cbn.
    split.
    + intros Hn. apply Nat.eqb_eq in Hn. now rewrite Hn.
    + intros Hn. destruct (Nat.eqb_spec (length objs) 0) as [E|_]; [lia|]. cbn.
      assert (Hw : map weight
                     (imap (fun index obj =>
                              set_weight
                                (share (100 / Z.of_nat (length objs))
                                   (100 - 100 / Z.of_nat (length objs) * Z.of_nat (length objs))
                                   index) obj) objs)
                   = split_evenly 100 (length objs)).
      { rewrite (imap_weights weight set_weight); [apply share_eq_split | reflexivity]. }
      rewrite Hw. split; [reflexivity | split; [| split]].
      * apply (imap_frame set_weight). reflexivity.
      * now apply Zsum_split_evenly.
      * apply split_evenly_spread.
  - intros [fh [objs h] clk] objectiveId; unfold keyResults_of; cbn.
    unfold autoBalanceKRWeights, exec, bind, get_objectives, gets; cbn.
    destruct (List.find (fun o => String.eqb (id o) objectiveId) objs) as [obj|] eqn:Hfind.
    + split.
      * intros [-> | ->]; reflexivity.
      * intros krs -> Hn.
        destruct (Nat.eqb_spec (length krs) 0) as [E|_]; [lia|]. cbn.
        erewrite find_mutate_first; [| exact Hfind |].
        2:{ cbn. apply find_some in Hfind. apply Hfind. }
        cbn. eexists; split; [reflexivity|].
        assert (Hw : map kr_weight
                       (imap (fun index kr =>
                                set_kr_weight
                                  (share (100 / Z.of_nat (length krs))
                                     (100 - 100 / Z.of_nat (length krs) * Z.of_nat (length krs))
                                     index) kr) krs)
                     = split_evenly 100 (length krs)).
        { rewrite (imap_weights kr_weight set_kr_weight);
            [apply share_eq_split | reflexivity]. }
        rewrite Hw. split; [reflexivity | split; [| split]].
        -- apply (imap_frame set_kr_weight). reflexivity.
        -- now apply Zsum_split_evenly.
        -- apply split_evenly_spread.
    + split; [reflexivity | discriminate].
Qed.

(** ** The monad, step by step *)


Lemma find_some_nonempty {A : Type} (p : A -> bool) (l : list A) (x : A) :
  List.find p l = Some x -> is_nil l = false.
Proof. destruct l; [discriminate | reflexivity]. Qed.

Lemma is_nil_mutate_first {A : Type} (p : A -> bool) (f : A -> A) (l : list A) :
  is_nil (mutate_first p f l) = is_nil l.
Proof. destruct l as [|x l]; simpl; [reflexivity|]. destruct (p x); reflexivity. Qed.

Arguments addHistoryEntry : simpl never.
Arguments recordProgressSnapshot : simpl never.
Arguments snapshot_entry : simpl never.
Arguments krProgress : simpl never.
Arguments progress_label : simpl never.

Section Runs.

Variable genId : nat -> string.
Variable isoNow : nat -> string.

Lemma addHistoryEntry_run (type itemType itemId itemTitle : string) (changes : Changes)
    (group : option string) (w : World) :
  addHistoryEntry genId isoNow type itemType itemId itemTitle changes group w
  = Return tt
      (mkWorld (fileHandle w)
         (mkData (objectives (data w))
            (unshift_capped
               (mkHistoryEntry (genId (clock w)) (isoNow (S (clock w))) type itemType
                  itemId itemTitle changes group)
               (history (data w))))
         (S (S (clock w)))).
Proof. reflexivity. Qed.

Lemma recordProgressSnapshot_run (w : World) :
  recordProgressSnapshot genId isoNow w
  = Return tt
      (if is_nil (objectives (data w)) then w
       else mkWorld (fileHandle w)
              (mkData (objectives (data w))
                 (unshift_capped (snapshot_entry genId isoNow w) (history (data w))))
              (S (S (S (clock w))))).
Proof.
  destruct w as [fh [objs h] clk].
  unfold recordProgressSnapshot, bind, get_objectives, gets; cbn.
  destruct objs; reflexivity.
Qed.

End Runs.

(** ** History log *)

Lemma unshift_capped_take (entry : HistoryEntry) (h : list HistoryEntry) :
  unshift_capped entry h = take 1000 (entry :: h).
Proof.
  unfold unshift_capped. cbv zeta.
  destruct (Nat.ltb_spec 1000 (length (entry :: h))); [reflexivity|].
  symmetry. apply take_ge. assumption.
Qed.

(** C5. [addHistoryEntry] puts the new entry at the front of the log; the
    log it leaves never has more than 1000 entries, whatever its length
    before; what it drops is the tail of the array from position 1000 on,
    that is the entries appended longest ago, in array order and regardless
    of their timestamps; below the cap nothing is dropped. *)
Theorem C5_history_cap :
  forall (genId isoNow : nat -> string) (type itemType itemId itemTitle : string)
         (changes : Changes) (group : option string) (w : World),
    let entry := mkHistoryEntry (genId (clock w)) (isoNow (S (clock w))) type itemType
                   itemId itemTitle changes group in
    let h := history (data w) in
    let w' := exec (addHistoryEntry genId isoNow type itemType itemId itemTitle
                      changes group) w in
    let h' := history (data w') in
    throws (addHistoryEntry genId isoNow type itemType itemId itemTitle changes group) w
      = false /\
    objectives (data w') = objectives (data w) /\
    head h' = Some entry /\
    (length h' <= 1000)%nat /\
    h' = take 1000 (entry :: h) /\
    entry :: h = h' ++ drop 1000 (entry :: h) /\
    ((length h < 1000)%nat -> h' = entry :: h).
Proof.
  intros. subst w' h'. unfold exec, throws. rewrite addHistoryEntry_run. cbn.
  fold entry. fold h. rewrite unshift_capped_take.
  split; [reflexivity | split; [reflexivity | split; [reflexivity | split; [| split; [| split]]]]].
  - rewrite length_take. lia.
  - reflexivity.
  - symmetry. apply (take_drop 1000 (entry :: h)).
  - intros Hlt. apply take_ge. simpl. lia.
Qed.

(** ** Progress updates *)

Lemma find_id_eq (objectiveId : string) (objs : list Objective) (o : Objective) :
  List.find (fun o => String.eqb (id o) objectiveId) objs = Some o -> id o = objectiveId.
Proof. intros H. apply find_some in H. now apply String.eqb_eq. Qed.

Lemma find_kr_id_eq (krId : string) (krs : list KeyResult) (k : KeyResult) :
  List.find (fun k => String.eqb (kr_id k) krId) krs = Some k -> kr_id k = krId.
Proof. intros H. apply find_some in H. now apply String.eqb_eq. Qed.

(** C10. [updateKR] on an existing Key Result stores
    [max(0, min(target, current + delta))]; when that differs from the old
    [current] the log gains a [progress] entry for the Key Result and then
    the progress snapshot, and when it equals the old [current] the log
    gains the progress snapshot only.  The clamp leaves [current] unchanged
    in particular for [delta > 0] at [current = target] (with a
    non-negative target) and for [delta < 0] at [current = 0]. *)
Theorem C10_updateKR_progress_entry :
  forall (genId isoNow : nat -> string) (w : World) (objectiveId krId : string)
         (delta : Z) (objective : Objective) (krs : list KeyResult) (kr : KeyResult),
    List.find (fun o => String.eqb (id o) objectiveId) (objectives (data w))
      = Some objective ->
    keyResults objective = Some krs ->
    List.find (fun k => String.eqb (kr_id k) krId) krs = Some kr ->
    let newCurrent := Z.max 0 (Z.min (kr_target kr) (kr_current kr + delta)) in
    let w' := exec (updateKR genId isoNow objectiveId krId delta) w in
    throws (updateKR genId isoNow objectiveId krId delta) w = false /\
    (exists krs',
        keyResults_of objectiveId w' = Some krs' /\
        List.find (fun k => String.eqb (kr_id k) krId) krs'
          = Some (set_kr_current newCurrent kr)) /\
    (exists snap : HistoryEntry,
        h_type snap = "progress-snapshot" /\
        (newCurrent <> kr_current kr ->
           exists p : HistoryEntry,
             h_type p = "progress" /\ h_itemType p = "keyresult" /\ h_itemId p = krId /\
             h_changes p
               = ProgressChange
                   (progress_label (kr_current kr) (kr_target kr)
                      (krProgress (kr_current kr) (kr_target kr)))
                   (progress_label newCurrent (kr_target kr)
                      (krProgress newCurrent (kr_target kr)))
                   delta /\
             history (data w') = unshift_capped snap (unshift_capped p (history (data w)))) /\
        (newCurrent = kr_current kr ->
           history (data w') = unshift_capped snap (history (data w)))) /\
    (0 < delta -> kr_current kr = kr_target kr -> 0 <= kr_target kr ->
       newCurrent = kr_current kr) /\
    (delta < 0 -> kr_current kr = 0 -> newCurrent = kr_current kr).
Proof.
  intros genId isoNow [fh [objs h] clk] objectiveId krId delta objective krs kr
    Hobj Hkrs Hkr newCurrent w'.
  cbn in Hobj.
  assert (Hid : id objective = objectiveId) by now apply find_id_eq in Hobj.
  assert (Hkid : kr_id kr = krId) by now apply find_kr_id_eq in Hkr.
  assert (Hw' : updateKR genId isoNow objectiveId krId delta (mkWorld fh (mkData objs h) clk)
                = Return tt w').
  { subst w'. unfold exec.
    destruct (updateKR genId isoNow objectiveId krId delta (mkWorld fh (mkData objs h) clk)) eqn:E;
      [destruct a; reflexivity|].
    exfalso. revert E.
    unfold updateKR, bind, get_objectives, gets; cbn.
    rewrite Hobj, Hkrs, Hkr.
    unfold modify_kr, modify_objective, modify_objectives, when, saveToFile,
      renderObjectives, ret; cbn.
    destruct (negb _); rewrite ?addHistoryEntry_run; cbn;
      rewrite recordProgressSnapshot_run; discriminate. }
  split; [unfold throws; now rewrite Hw'|].
  assert (Hp : forall k, (kr_id (set_kr_current newCurrent k) =? krId)%string
                         = (kr_id k =? krId)%string) by reflexivity.
  assert (Hkof : forall hh cc,
             exists krs',
               keyResults_of objectiveId
                 (mkWorld fh
                    (mkData
                       (mutate_first (fun o => (id o =? objectiveId)%string)
                          (fun o => set_keyResults
                                      (option_map
                                         (mutate_first (fun k => (kr_id k =? krId)%string)
                                            (set_kr_current newCurrent))
                                         (keyResults o)) o) objs) hh) cc) = Some krs' /\
               List.find (fun k => (kr_id k =? krId)%string) krs'
                 = Some (set_kr_current newCurrent kr)).
  { intros hh cc. unfold keyResults_of; cbn.
    erewrite find_mutate_first; [| exact Hobj | cbn; now apply String.eqb_eq].
    cbn. rewrite Hkrs. cbn. eexists; split; [reflexivity|].
    apply find_mutate_first; [exact Hkr | cbn; now apply String.eqb_eq]. }
  revert Hw'.
  unfold updateKR, bind, get_objectives, gets; cbn.
  rewrite Hobj, Hkrs, Hkr.
  unfold modify_kr, modify_objective, modify_objectives, when, saveToFile,
    renderObjectives, ret; cbn.
  fold newCurrent.
  destruct (Z.eqb_spec (kr_current kr) newCurrent) as [E|NE]; cbn [negb].
  - rewrite recordProgressSnapshot_run; cbn.
    rewrite is_nil_mutate_first, (find_some_nonempty _ _ _ Hobj).
    intros [= <-]. split; [apply Hkof|]. split.
    + eexists (snapshot_entry genId isoNow _). split; [reflexivity|]. split.
      * intros NE. congruence.
      * intros _. reflexivity.
    + split; intros; lia.
  - rewrite addHistoryEntry_run; cbn. rewrite recordProgressSnapshot_run; cbn.
    rewrite is_nil_mutate_first, (find_some_nonempty _ _ _ Hobj).
    intros [= <-]. split; [apply Hkof|]. split.
    + eexists (snapshot_entry genId isoNow _). split; [reflexivity|]. split.
      * intros _.
        exists (mkHistoryEntry (genId clk) (isoNow (S clk)) "progress" "keyresult" krId
                  (kr_title kr)
                  (ProgressChange
                     (progress_label (kr_current kr) (kr_target kr)
                        (krProgress (kr_current kr) (kr_target kr)))
                     (progress_label newCurrent (kr_target kr)
                        (krProgress newCurrent (kr_target kr)))
                     delta)
                  (Some (group objective))).
        repeat (split; [reflexivity|]). reflexivity.
      * intros E. congruence.
    + split; intros; lia.
Qed.

(** ** Manual-set rebalance *)

Section SharedArrays.

Context {A : Type} (getid : A -> string) (get : A -> Z) (set : Z -> A -> A).
Hypothesis getid_set : forall z x, getid (set z x) = getid x.
Hypothesis get_set : forall z x, get (set z x) = z.
Hypothesis set_set : forall z z' x, set z (set z' x) = set z x.

Variable editedId : string.

Local Abbreviation is_other := (is_other_than getid editedId).






Lemma map_getid_mutate_first (p : A -> bool) (f : A -> A) (l : list A) :
  (forall x, getid (f x) = getid x) ->
  map getid (mutate_first p f l) = map getid l.
Proof.
  intros Hf. induction l as [|x l IH]; simpl; [reflexivity|].
  destruct (p x); simpl; rewrite ?Hf, ?IH; reflexivity.
Qed.

Lemma filter_others_all (l : list A) :
  ~ In editedId (map getid l) -> List.filter is_other l = l.
Proof.
  induction l as [|x l IH]; simpl; [reflexivity|].
  intros Hn. unfold is_other_than at 1.
  destruct (String.eqb_spec (getid x) editedId) as [E|_]; [tauto|].
  simpl. rewrite IH; tauto.
Qed.

Lemma length_others (l : list A) (x : A) :
  NoDup (map getid l) ->
  List.find (fun x => String.eqb (getid x) editedId) l = Some x ->
  length (List.filter is_other l) = (length l - 1)%nat.
Proof.
  induction l as [|y l IH]; simpl; [discriminate|].
  intros Hnd Hfind. apply NoDup_cons in Hnd as [Hy Hnd].
  unfold is_other_than at 1.
  destruct (String.eqb_spec (getid y) editedId) as [E|NE]; simpl.
  - rewrite filter_others_all; [lia|].
    rewrite <- E. now rewrite <- list_elem_of_In.
  - specialize (IH Hnd Hfind). rewrite IH.
    destruct l; [discriminate|]. simpl. lia.
Qed.

End SharedArrays.

Arguments balanceOtherObjectives : simpl never.
Arguments balanceOtherKRs : simpl never.


Lemma set_keyResults_same (o : Objective) (krs : list KeyResult) :
  keyResults o = Some krs -> set_keyResults (Some krs) o = o.
Proof. destruct o; cbn. now intros ->. Qed.

Lemma mutate_first_same {A : Type} (p : A -> bool) (f : A -> A) (l : list A) (x : A) :
  List.find p l = Some x -> f x = x -> mutate_first p f l = l.
Proof.
  induction l as [|y l IH]; simpl; [discriminate|].
  destruct (p y).
  - intros [= ->] ->. reflexivity.
  - intros H1 H2. now rewrite IH.
Qed.






(** ** Binary64 rounding *)

Lemma nearest_even_nonneg (num den : Z) : 0 <= num -> 0 < den -> 0 <= nearest_even num den.
Proof.
  intros Hn Hd. unfold nearest_even.
  pose proof (Z.div_pos num den Hn Hd) as Hk.
  destruct (2 * (num mod den) ?= den); [destruct (Z.even _)|..]; lia.
Qed.

Lemma nearest_even_exact (k den : Z) : 0 < den -> nearest_even (k * den) den = k.
Proof.
  intros Hd. unfold nearest_even.
  rewrite Z.div_mul, Z.mod_mul, Z.mul_0_r by lia.
  destruct den; try lia; reflexivity.
Qed.

Lemma binade_le (a d k : Z) :
  0 < a -> 0 < d -> 0 <= k -> a < d * 2 ^ (k + 1) -> binade a d <= k.
Proof.
  intros Ha Hd Hk Hlt. unfold binade.
  assert (He : Z.log2 a - Z.log2 d <= k + 1).
  { assert (H : Z.log2 a <= Z.log2 (d * 2 ^ (k + 1))) by (apply Z.log2_le_mono; lia).
    rewrite Z.log2_mul_pow2 in H by lia. lia. }
  set (e := Z.log2 a - Z.log2 d) in *.
  destruct (Z.eq_dec e (k + 1)) as [-> | Hne].
  - destruct (Z.leb_spec 0 (k + 1)); [|lia].
    destruct (Z.ltb_spec a (d * 2 ^ (k + 1))); lia.
  - destruct (if 0 <=? e then a <? d * 2 ^ e else a * 2 ^ (- e) <? d); lia.
Qed.

Lemma Qred_inject_Z (z : Z) : Qred (inject_Z z) = inject_Z z.
Proof.
  unfold Qred, inject_Z.
  pose proof (Z.ggcd_gcd z 1) as Hg. pose proof (Z.ggcd_correct_divisors z 1) as Hd.
  destruct (Z.ggcd z 1) as (g & aa & bb). cbn in *.
  rewrite Z.gcd_1_r in Hg. subst g. destruct Hd as [Ha Hb].
  replace aa with z by lia. replace bb with 1 by lia. reflexivity.
Qed.

(** Integers below [2 ^ 53] in absolute value are binary64 values: an exact
    result that is such an integer is not changed by the rounding. *)
Lemma round_binary64_integer (q : Q) (z : Z) :
  (q == inject_Z z)%Q -> Z.abs z < 2 ^ 53 -> round_binary64 q = ofZ z.
Proof.
  intros Hq Hz. destruct q as [n d]. unfold Qeq in Hq. cbn in Hq.
  rewrite Z.mul_1_r in Hq. unfold round_binary64. cbn [Qnum Qden].
  destruct (Z.eqb_spec n 0) as [E|NE].
  { assert (z = 0) as -> by nia. reflexivity. }
  assert (Hz0 : z <> 0) by nia.
  assert (Ha : Z.abs n = Z.abs z * Z.pos d) by (subst n; rewrite Z.abs_mul; lia).
  assert (Hs : Z.sgn n = Z.sgn z) by (subst n; rewrite Z.sgn_mul; cbn; lia).
  assert (Hb : binade (Z.abs n) (Z.pos d) <= 52).
  { apply binade_le; try lia. change (52 + 1) with 53. rewrite Ha. nia. }
  cbv zeta. rewrite Ha, Hs.
  set (s := Z.max (binade (Z.abs z * Z.pos d) (Z.pos d)) (-1022) - 52).
  assert (Hs0 : s <= 0) by (unfold s; rewrite <- Ha; lia).
  destruct (Z.leb_spec 0 s) as [Hge|Hlt].
  - assert (s = 0) as -> by lia. change (2 ^ 0) with 1.
    rewrite !Z.mul_1_r, nearest_even_exact by lia.
    assert (Hbig : 2 ^ 53 < 2 ^ 1024) by (apply Z.pow_lt_mono_r; lia).
    destruct (Z.leb_spec (2 ^ 1024) (Z.abs z)); [lia|].
    unfold ofZ. do 2 f_equal. rewrite Z.mul_comm. apply Z.abs_sgn.
  - assert (Hp : 0 < 2 ^ (- s)) by (apply Z.pow_pos_nonneg; lia).
    replace (Z.abs z * Z.pos d * 2 ^ (- s)) with (Z.abs z * 2 ^ (- s) * Z.pos d) by ring.
    rewrite nearest_even_exact by lia.
    unfold ofZ. f_equal. rewrite <- Qred_inject_Z. apply Qred_complete.
    unfold Qeq. cbn. rewrite Z2Pos.id by lia.
    pose proof (Z.abs_sgn z) as Hz'. nia.
Qed.

(** The rounding keeps the sign: what rounds a non-negative rational is a
    non-negative value or [Infinity], never [NaN]. *)
Lemma round_binary64_nonneg (q : Q) : (0 <= q)%Q -> nonneg (round_binary64 q).
Proof.
  intros Hq. unfold round_binary64.
  destruct (Z.eqb_spec (Qnum q) 0) as [E|NE].
  { right. exists 0%Q. split; [reflexivity | apply Qle_refl]. }
  assert (Hpos : 0 < Qnum q).
  { unfold Qle in Hq. cbn in Hq. lia. }
  cbv zeta. rewrite (Z.sgn_pos _ Hpos), (Z.abs_eq (Qnum q)) by lia.
  set (s := Z.max (binade (Qnum q) (Z.pos (Qden q))) (-1022) - 52).
  destruct (Z.leb_spec 0 s) as [Hge|Hlt].
  - assert (Hp : 0 < 2 ^ s) by (apply Z.pow_pos_nonneg; lia).
    pose proof (nearest_even_nonneg (Qnum q) (Z.pos (Qden q) * 2 ^ s)
                  ltac:(lia) ltac:(nia)) as Hm.
    destruct (2 ^ 1024 <=? _); [left; reflexivity|].
    right. eexists. split; [reflexivity|]. unfold Qle. cbn. nia.
  - assert (Hp : 0 < 2 ^ (- s)) by (apply Z.pow_pos_nonneg; lia).
    pose proof (nearest_even_nonneg (Qnum q * 2 ^ (- s)) (Z.pos (Qden q))
                  ltac:(nia) ltac:(lia)) as Hm.
    right. eexists. split; [reflexivity|]. rewrite Qred_correct.
    unfold Qle. cbn. lia.
Qed.

(** The rounding at known binary64 values: [0.1], [0.1 + 0.2], [0.57 * 100],
    the largest finite value and the overflow threshold, and the ties
    between the smallest subnormal values. *)
Lemma round_binary64_values :
  round_binary64 (1 # 10) = Num (3602879701896397 # 36028797018963968) /\
  add (round_binary64 (1 # 10)) (round_binary64 (2 # 10))
  = Num (1351079888211149 # 4503599627370496) /\
  mul (div (ofZ 57) (ofZ 100)) (ofZ 100) = Num (8022036836253695 # 140737488355328) /\
  round_binary64 (inject_Z (2 ^ 1024 - 2 ^ 970 - 1))
  = Num (inject_Z (2 ^ 1024 - 2 ^ 971)) /\
  round_binary64 (inject_Z (2 ^ 1024 - 2 ^ 970)) = Infinity /\
  round_binary64 (1 # Z.to_pos (2 ^ 1075)) = Num 0 /\
  round_binary64 (3 # Z.to_pos (2 ^ 1075)) = Num (1 # Z.to_pos (2 ^ 1073)).
Proof. repeat split; vm_compute; reflexivity. Qed.

(** ** Progress calculator *)

Lemma Math_min_ofZ (a b : Z) : Math_min (ofZ a) (ofZ b) = ofZ (Z.min a b).
Proof.
  unfold Math_min, ofZ.
  destruct (Qle_bool (inject_Z a) (inject_Z b)) eqn:E.
  - apply Qle_bool_iff in E. rewrite <- Zle_Qle in E. now rewrite Z.min_l.
  - destruct (Z.le_gt_cases a b) as [Hle|Hgt].
    + rewrite Zle_Qle in Hle. apply Qle_bool_iff in Hle. congruence.
    + rewrite Z.min_r by lia. reflexivity.
Qed.

Lemma fold_ratio_sum (krs : list KeyResult) (a : number) :
  fold_left (fun sum kr => add sum (ratio100 (kr_current kr) (kr_target kr))) krs a
  = fold_left add (map Spec.raw_ratio krs) a.
Proof.
  revert a. induction krs as [|kr krs IH]; intros a; simpl; [reflexivity | apply IH].
Qed.

Lemma calculateProgress_mean (obj : Objective) (krs : list KeyResult) :
  keyResults obj = Some krs -> krs <> [] ->
  calculateProgress obj
  = Math_min (ofZ 100) (Math_round (Spec.mean (map Spec.raw_ratio krs))).
Proof.
  intros Hkrs Hne. unfold calculateProgress. rewrite Hkrs.
  destruct (Nat.eqb_spec (length krs) 0) as [E|NE];
    [destruct krs; [contradiction | discriminate]|].
  cbv zeta. rewrite fold_ratio_sum. unfold Spec.mean, Spec.sum.
  now rewrite length_map.
Qed.

Lemma add_nonneg (a b : number) : nonneg a -> nonneg b -> nonneg (add a b).
Proof.
  intros [-> | (x & -> & Hx)] [-> | (y & -> & Hy)]; cbn; try (left; reflexivity).
  apply round_binary64_nonneg.
  replace 0%Q with (0 + 0)%Q by reflexivity. now apply Qplus_le_compat.
Qed.

Lemma Qeq_bool_inject_Z_0 (z : Z) : z <> 0 -> Qeq_bool (inject_Z z) 0 = false.
Proof.
  intros Hz. destruct (Qeq_bool (inject_Z z) 0) eqn:E; [|reflexivity].
  apply Qeq_bool_iff in E. unfold Qeq in E. cbn in E. lia.
Qed.

Lemma mul_nonneg_ofZ (a : number) (z : Z) : nonneg a -> 0 < z -> nonneg (mul a (ofZ z)).
Proof.
  intros [-> | (x & -> & Hx)] Hz.
  - left. unfold mul, ofZ, sign, Qsign. cbn [Qnum inject_Z].
    rewrite (Z.sgn_pos z Hz). reflexivity.
  - cbn. apply round_binary64_nonneg. apply Qmult_le_0_compat; [exact Hx|].
    change 0%Q with (inject_Z 0). rewrite <- Zle_Qle. lia.
Qed.

Lemma div_nonneg_ofZ (a : number) (z : Z) : nonneg a -> 0 < z -> nonneg (div a (ofZ z)).
Proof.
  intros [-> | (x & -> & Hx)] Hz; unfold div, ofZ; rewrite Qeq_bool_inject_Z_0 by lia.
  - left. unfold sign, Qsign. cbn [Qnum inject_Z]. rewrite (Z.sgn_pos z Hz). reflexivity.
  - apply round_binary64_nonneg. apply Qle_shift_div_l.
    + change 0%Q with (inject_Z 0). rewrite <- Zlt_Qlt. exact Hz.
    + rewrite Qmult_0_l. exact Hx.
Qed.

Lemma ofZ_nonneg (z : Z) : 0 <= z -> nonneg (ofZ z).
Proof.
  intros Hz. right. exists (inject_Z z). split; [reflexivity|].
  change 0%Q with (inject_Z 0). now rewrite <- Zle_Qle.
Qed.

Lemma ratio100_nonneg (current target : Z) :
  0 < target -> 0 <= current -> nonneg (ratio100 current target).
Proof.
  intros Ht Hc. unfold ratio100.
  apply mul_nonneg_ofZ; [|lia]. apply div_nonneg_ofZ; [|exact Ht]. now apply ofZ_nonneg.
Qed.

Lemma sum_nonneg (l : list number) (a : number) :
  nonneg a -> Forall nonneg l -> nonneg (fold_left add l a).
Proof.
  intros Ha H. revert a Ha. induction H as [|x l Hx _ IH]; intros a Ha; simpl;
    [exact Ha|]. apply IH. now apply add_nonneg.
Qed.

(** A non-negative value, rounded and capped, is a whole percentage. *)
Lemma round_cap_nonneg (a : number) :
  nonneg a -> exists p, Math_min (ofZ 100) (Math_round a) = ofZ p /\ 0 <= p <= 100.
Proof.
  intros [-> | (x & -> & Hx)].
  - exists 100. split; [reflexivity | lia].
  - exists (Z.min 100 (Qfloor (x + (1 # 2)))). split.
    + unfold Math_round. apply Math_min_ofZ.
    + assert (0 <= Qfloor (x + (1 # 2))); [|lia].
      change 0 with (Qfloor 0). apply Qfloor_resp_le.
      replace 0%Q with (0 + 0)%Q by reflexivity.
      apply Qplus_le_compat; [exact Hx | discriminate].
Qed.

Lemma calculateProgress_percentage (obj : Objective) (krs : list KeyResult) :
  keyResults obj = Some krs ->
  Forall (fun kr => 0 < kr_target kr /\ 0 <= kr_current kr) krs ->
  exists p, calculateProgress obj = ofZ p /\ 0 <= p <= 100.
Proof.
  intros Hkrs Hall. destruct krs as [|kr0 krs0].
  { exists 0. split; [unfold calculateProgress; now rewrite Hkrs | lia]. }
  rewrite (calculateProgress_mean obj _ Hkrs) by discriminate.
  apply round_cap_nonneg. unfold Spec.mean. apply div_nonneg_ofZ.
  - apply sum_nonneg; [now apply ofZ_nonneg|]. apply Forall_map.
    eapply Forall_impl; [exact Hall|]. cbn. intros k [Ht Hc]. now apply ratio100_nonneg.
  - rewrite length_map. simpl length. lia.
Qed.

(** C3 (as the code has it).  [calculateProgress] is 0 for an Objective
    without Key Results.  Otherwise it is the mean of the unrounded and
    unclamped values [current / target * 100] of the Key Results (their
    sum from the left over their number, in binary64 arithmetic), rounded
    to the nearest integer (halves up) and capped at 100: the values are
    not rounded or clamped one by one before the mean is taken.  For
    positive targets and non-negative current values the result is a whole
    percentage between 0 and 100.  Key Results at 50/100 and 30/100 give
    40; at 57/100 and 58/100 the binary64 products are just below 57 and
    58, their mean just below 57.5, and the result is 57. *)
Theorem C3_objective_progress :
  (forall obj : Objective,
      (keyResults obj = None \/ keyResults obj = Some [] -> calculateProgress obj = ofZ 0) /\
      (forall krs,
          keyResults obj = Some krs -> krs <> [] ->
          calculateProgress obj
          = Math_min (ofZ 100) (Math_round (Spec.mean (map Spec.raw_ratio krs)))) /\
      (forall krs,
          keyResults obj = Some krs ->
          Forall (fun kr => 0 < kr_target kr /\ 0 <= kr_current kr) krs ->
          exists p, calculateProgress obj = ofZ p /\ 0 <= p <= 100)) /\
  calculateProgress objective_50_30 = ofZ 40 /\
  calculateProgress objective_57_58 = ofZ 57.
Proof.
  split; [|split; vm_compute; reflexivity].
  intros obj. split; [|split].
  - unfold calculateProgress. intros [-> | ->]; reflexivity.
  - apply calculateProgress_mean.
  - apply calculateProgress_percentage.
Qed.

(** C3, the claim as written fails: for Key Results at 10/64, 10/64 and
    30/40 (the values 15.625, 15.625 and 75, all exact in binary64) the
    code rounds their mean and returns 35, while the mean of the rounded
    values 16, 16 and 75 rounds to 36. *)
Lemma C3_counterexample :
  map Spec.raw_ratio [demo_kr "k1" 10 64; demo_kr "k2" 10 64; demo_kr "k3" 30 40]
  = [Num (125 # 8); Num (125 # 8); Num 75] /\
  calculateProgress objective_dyadic = ofZ 35 /\
  Spec.objectiveProgress objective_dyadic = ofZ 36 /\
  calculateProgress objective_dyadic <> Spec.objectiveProgress objective_dyadic.
Proof.
  split; [vm_compute; reflexivity|].
  split; [vm_compute; reflexivity|].
  split; [vm_compute; reflexivity|].
  vm_compute. discriminate.
Qed.

(** C6.  A Key Result with target 0, as [saveKeyResult] creates it from the
    form value ["0"], has current 0; its progress is [0/0 * 100], which is
    [NaN], and [NaN] is also the progress of its Objective and the value
    the snapshot records, where the specification requires the defined
    percentage 0. *)
Theorem C6_zero_target_progress_is_NaN :
  map (fun o => option_map (map (fun kr => (kr_current kr, kr_target kr))) (keyResults o))
    (objectives (data world_zero_target)) = [Some [(0, 0)]] /\
  krProgress 0 0 = NaN /\
  map calculateProgress (objectives (data world_zero_target)) = [NaN] /\
  (exists s, option_map h_changes (head (history (data world_zero_target)))
             = Some (SnapshotPayload s) /\
             option_map os_progress (snap_objectives s !! "id1") = Some NaN).
Proof.
  split; [vm_compute; reflexivity|].
  split; [vm_compute; reflexivity|].
  split; [vm_compute; reflexivity|].
  eexists. split; [vm_compute; reflexivity|]. vm_compute; reflexivity.
Qed.

(** ** Weights above 100 *)

(** C7.  [saveObjective] stores a manual weight above 100 as it is and
    hands it to the balancer: editing the first of two Objectives (50/50)
    to weight 150 leaves it at 150 and the other one at -50, where the
    specification requires the edit to be rejected or clamped so that no
    weight is negative; with a single Objective the weight 150 stays and
    the weights sum to 150. *)
Theorem C7_weight_above_100_not_rejected :
  map (fun o => (id o, weight o)) (objectives (data world_two))
    = [("id1", 50); ("id8", 50)] /\
  map (fun o => (id o, weight o))
    (objectives (data (demo_run [OpSaveObjective (demo_form (Some "id1") "Ship" 150)]
                         world_two)))
    = [("id1", 150); ("id8", -50)] /\
  map (fun o => (id o, weight o))
    (objectives (data (demo_run [OpSaveObjective (demo_form (Some "id1") "Ship" 150)]
                         world_one)))
    = [("id1", 150)].
Proof.
  split; [vm_compute; reflexivity|].
  split; vm_compute; reflexivity.
Qed.

(** ** Operations on ids that do not exist *)

Lemma filter_find_none {A : Type} (p : A -> bool) (l : list A) :
  List.find p l = None -> List.filter (fun x => negb (p x)) l = l.
Proof.
  induction l as [|x l IH]; simpl; [reflexivity|].
  destruct (p x); [discriminate|]. simpl. intros H. now rewrite IH.
Qed.

Section Snapshots.

Variable genId : nat -> string.
Variable isoNow : nat -> string.

Lemma recordProgressSnapshot_returns (w : World) :
  recordProgressSnapshot genId isoNow w
  = Return tt (exec (recordProgressSnapshot genId isoNow) w).
Proof. unfold exec. now rewrite recordProgressSnapshot_run. Qed.

Lemma objectives_recordProgressSnapshot (w : World) :
  objectives (data (exec (recordProgressSnapshot genId isoNow) w)) = objectives (data w).
Proof.
  unfold exec. rewrite recordProgressSnapshot_run.
  destruct (is_nil (objectives (data w))); reflexivity.
Qed.

Lemma history_recordProgressSnapshot (w : World) :
  history (data (exec (recordProgressSnapshot genId isoNow) w))
  = if is_nil (objectives (data w)) then history (data w)
    else unshift_capped (snapshot_entry genId isoNow w) (history (data w)).
Proof.
  unfold exec. rewrite recordProgressSnapshot_run.
  destruct (is_nil (objectives (data w))); reflexivity.
Qed.

End Snapshots.

(** Where the [keyResults] property of the Objective is absent, [updateKR]
    and [deleteKR] throw: they call [objective.keyResults.find] without the
    guard that [saveKeyResult] has. *)
Lemma updateKR_deleteKR_without_keyResults (genId isoNow : nat -> string) (w : World)
    (objectiveId krId : string) (delta : Z) (objective : Objective) :
  List.find (fun o => String.eqb (id o) objectiveId) (objectives (data w)) = Some objective ->
  keyResults objective = None ->
  updateKR genId isoNow objectiveId krId delta w = Throw w /\
  deleteKR genId isoNow objectiveId krId w = Throw w.
Proof.
  intros Hobj Hkrs. unfold updateKR, deleteKR, bind, get_objectives, gets.
  now rewrite Hobj, Hkrs.
Qed.

(** C8 (as the code has it).  An edit, delete or progress update aimed at
    an Objective id or Key Result id that does not exist raises no error,
    leaves the objectives collection as it is and logs no [updated],
    [deleted] or [progress] entry; the history is not always left alone,
    though.  [updateKR], and [saveKeyResult] and [deleteKR] when the
    Objective id is the missing one, leave the whole Document unchanged;
    [saveObjective] and [deleteObjective] with a missing Objective id, and
    [saveKeyResult] and [deleteKR] with a missing Key Result id under an
    existing Objective that carries a [keyResults] array, do exactly what
    [recordProgressSnapshot] does: with at least one Objective present they
    push one [progress-snapshot] entry onto the capped log. *)
Theorem C8_missing_id :
  forall (genId isoNow : nat -> string) (w : World),
    let snapshot := exec (recordProgressSnapshot genId isoNow) w in
    (objectives (data snapshot) = objectives (data w) /\
     (objectives (data w) = [] -> snapshot = w) /\
     (objectives (data w) <> [] ->
        exists e, h_type e = "progress-snapshot" /\
                  history (data snapshot) = unshift_capped e (history (data w)))) /\
    (forall objectiveId : string,
        List.find (fun o => String.eqb (id o) objectiveId) (objectives (data w)) = None ->
        (forall formData,
            truthy (f_editId formData) = Some objectiveId ->
            runs_to (saveObjective genId isoNow formData) w
              (if fileHandle w then snapshot else w)) /\
        (forall confirmed,
            runs_to (deleteObjective genId isoNow confirmed objectiveId) w
              (if confirmed then snapshot else w)) /\
        (forall title target startDate targetDate weight status confidence lastCheckin
                evidence comments editId,
            runs_to (saveKeyResult genId isoNow objectiveId title target startDate
                       targetDate weight status confidence lastCheckin evidence comments
                       editId) w w) /\
        (forall krId delta, runs_to (updateKR genId isoNow objectiveId krId delta) w w) /\
        (forall krId, runs_to (deleteKR genId isoNow objectiveId krId) w w)) /\
    (forall (objectiveId krId : string) (objective : Objective) (krs : list KeyResult),
        List.find (fun o => String.eqb (id o) objectiveId) (objectives (data w))
          = Some objective ->
        keyResults objective = Some krs ->
        List.find (fun k => String.eqb (kr_id k) krId) krs = None ->
        (forall title target startDate targetDate weight status confidence lastCheckin
                evidence comments editId,
            truthy editId = Some krId ->
            runs_to (saveKeyResult genId isoNow objectiveId title target startDate
                       targetDate weight status confidence lastCheckin evidence comments
                       editId) w snapshot) /\
        (forall delta, runs_to (updateKR genId isoNow objectiveId krId delta) w w) /\
        runs_to (deleteKR genId isoNow objectiveId krId) w snapshot).
Proof.
  intros genId isoNow w snapshot. split; [|split].
  - split; [apply objectives_recordProgressSnapshot|]. split.
    + intros Hnil. subst snapshot. unfold exec. rewrite recordProgressSnapshot_run.
      now rewrite Hnil.
    + intros Hne. exists (snapshot_entry genId isoNow w). split; [reflexivity|].
      subst snapshot. rewrite history_recordProgressSnapshot.
      destruct (objectives (data w)); [contradiction | reflexivity].
  - intros objectiveId Hfind. subst snapshot.
    destruct w as [fh [objs h] clk]. cbn in Hfind.
    split; [|split; [|split; [|split]]].
    + intros formData Htr. unfold runs_to, saveObjective, bind, gets, get_objectives; cbn.
      destruct fh; [|reflexivity]. cbn. rewrite Htr; cbn. rewrite Hfind.
      unfold ret, saveToFile, updateDashboardCharts, renderObjectives; cbn.
      now rewrite recordProgressSnapshot_returns.
    + intros [|]; [|reflexivity].
      unfold runs_to, deleteObjective, bind, gets, get_objectives; cbn.
      rewrite Hfind. unfold ret, saveToFile, updateDashboardCharts, renderObjectives; cbn.
      rewrite (filter_find_none _ _ Hfind).
      now rewrite recordProgressSnapshot_returns.
    + intros. unfold runs_to, saveKeyResult, bind, gets, get_objectives; cbn.
      now rewrite Hfind.
    + intros. unfold runs_to, updateKR, bind, gets, get_objectives; cbn.
      now rewrite Hfind.
    + intros. unfold runs_to, deleteKR, bind, gets, get_objectives; cbn.
      now rewrite Hfind.
  - intros objectiveId krId objective krs Hobj Hkrs Hkr. subst snapshot.
    destruct w as [fh [objs h] clk]. cbn in Hobj.
    assert (Hsame : mutate_first (fun o => String.eqb (id o) objectiveId)
                      (set_keyResults (Some krs)) objs = objs).
    { apply (mutate_first_same _ _ _ objective Hobj). now apply set_keyResults_same. }
    split; [|split].
    + intros title target startDate targetDate weight status confidence lastCheckin
        evidence comments editId Htr.
      unfold runs_to, saveKeyResult, bind, gets, get_objectives; cbn.
      rewrite Hobj, Hkrs; cbn. rewrite Htr; cbn. rewrite Hkr.
      unfold modify_objective, modify_objectives, ret, saveToFile, updateDashboardCharts,
        renderObjectives; cbn.
      rewrite Hsame. now rewrite recordProgressSnapshot_returns.
    + intros delta. unfold runs_to, updateKR, bind, gets, get_objectives; cbn.
      now rewrite Hobj, Hkrs, Hkr.
    + unfold runs_to, deleteKR, bind, gets, get_objectives; cbn.
      rewrite Hobj, Hkrs, Hkr.
      unfold modify_objective, modify_objectives, ret, saveToFile, updateDashboardCharts,
        renderObjectives; cbn.
      rewrite (filter_find_none _ _ Hkr), Hsame.
      now rewrite recordProgressSnapshot_returns.
Qed.

(** C8, the claim as written fails: deleting an Objective id that does not
    exist from a Document holding one Objective leaves the objectives alone
    but pushes a progress snapshot onto the history, so the Document is not
    unchanged. *)
Lemma C8_counterexample :
  let w' := exec (deleteObjective demo_genId demo_isoNow true "missing") world_one in
  List.find (fun o => String.eqb (id o) "missing") (objectives (data world_one)) = None /\
  objectives (data w') = objectives (data world_one) /\
  map h_type (history (data w'))
    = "progress-snapshot" :: map h_type (history (data world_one)) /\
  data w' <> data world_one.
Proof.
  split; [vm_compute; reflexivity|].
  split; [vm_compute; reflexivity|].
  split; [vm_compute; reflexivity|].
  intros H. apply (f_equal (fun d => length (history d))) in H.
  vm_compute in H. discriminate.
Qed.

(** ** Snapshot recorder *)

Lemma fold_insert_other {A V : Type} (key : A -> string) (val : A -> V)
    (l : list A) (m0 : gmap string V) (i : string) :
  ~ In i (map key l) ->
  fold_left (fun m a => <[key a := val a]> m) l m0 !! i = m0 !! i.
Proof.
  revert m0. induction l as [|a l IH]; intros m0 Hi; simpl; [reflexivity|].
  simpl in Hi. rewrite IH by tauto. apply lookup_insert_ne. tauto.
Qed.

Lemma fold_insert_lookup {A V : Type} (key : A -> string) (val : A -> V)
    (l : list A) (m0 : gmap string V) (x : A) :
  NoDup (map key l) -> In x l ->
  fold_left (fun m a => <[key a := val a]> m) l m0 !! key x = Some (val x).
Proof.
  revert m0. induction l as [|a l IH]; intros m0 Hnd Hx; simpl; [destruct Hx|].
  simpl in Hnd. apply NoDup_cons in Hnd as [Ha Hnd].
  destruct Hx as [-> | Hx].
  - rewrite fold_insert_other; [apply lookup_insert_eq|].
    now rewrite <- list_elem_of_In.
  - now apply IH.
Qed.

Section Logging.

Variable genId : nat -> string.
Variable isoNow : nat -> string.

Lemma silent_ret {A : Type} (a : A) : silent (ret a).
Proof. intros w. now exists a, w. Qed.

Lemma silent_gets {A : Type} (f : World -> A) : silent (gets f).
Proof. intros w. now exists (f w), w. Qed.

Lemma silent_get_objectives : silent get_objectives.
Proof. apply silent_gets. Qed.

Lemma silent_modify_objectives (f : list Objective -> list Objective) :
  silent (modify_objectives f).
Proof. intros w. eexists _, _. split; reflexivity. Qed.

Lemma silent_modify_objective (objectiveId : string) (f : Objective -> Objective) :
  silent (modify_objective objectiveId f).
Proof. apply silent_modify_objectives. Qed.

Lemma silent_modify_kr (objectiveId krId : string) (f : KeyResult -> KeyResult) :
  silent (modify_kr objectiveId krId f).
Proof. apply silent_modify_objectives. Qed.

Lemma silent_generateId : silent (generateId genId).
Proof. intros w. eexists _, _. split; reflexivity. Qed.

Lemma silent_Date : silent (Date_toISOString isoNow).
Proof. intros w. eexists _, _. split; reflexivity. Qed.

Lemma silent_bind {A B : Type} (c : M A) (k : A -> M B) :
  silent c -> (forall a, silent (k a)) -> silent (bind c k).
Proof.
  intros Hc Hk w. destruct (Hc w) as (a & w1 & Hrun & Hh).
  destruct (Hk a w1) as (b & w2 & Hrun2 & Hh2).
  exists b, w2. unfold bind. rewrite Hrun, Hrun2. split; congruence.
Qed.

Lemma silent_when (c : bool) (body : M unit) : silent body -> silent (when c body).
Proof. destruct c; [trivial | intros _; apply silent_ret]. Qed.

Lemma silent_autoBalanceObjectiveWeights : silent autoBalanceObjectiveWeights.
Proof.
  intros w. unfold autoBalanceObjectiveWeights, bind, get_objectives, gets.
  destruct (length (objectives (data w)) =? 0)%nat; eexists _, _; split; reflexivity.
Qed.

Lemma silent_balanceOtherObjectives (editedId : string) (manualWeight : Z) :
  silent (balanceOtherObjectives editedId manualWeight).
Proof.
  intros w. unfold balanceOtherObjectives, bind, get_objectives, gets.
  repeat match goal with
         | |- context [if ?c then _ else _] => destruct c
         end; eexists _, _; split; reflexivity.
Qed.

Lemma silent_autoBalanceKRWeights (objectiveId : string) :
  silent (autoBalanceKRWeights objectiveId).
Proof.
  intros w. unfold autoBalanceKRWeights, bind, get_objectives, gets.
  destruct (List.find _ _) as [obj|]; [|eexists _, _; split; reflexivity].
  destruct (keyResults obj) as [krs|]; [|eexists _, _; split; reflexivity].
  destruct (length krs =? 0)%nat; eexists _, _; split; reflexivity.
Qed.

Lemma silent_balanceOtherKRs (objectiveId editedKRId : string) (manualWeight : Z) :
  silent (balanceOtherKRs objectiveId editedKRId manualWeight).
Proof.
  intros w. unfold balanceOtherKRs, bind, get_objectives, gets.
  destruct (List.find _ _) as [obj|]; [|eexists _, _; split; reflexivity].
  destruct (keyResults obj) as [krs|]; [|eexists _, _; split; reflexivity].
  repeat match goal with
         | |- context [if ?c then _ else _] => destruct c
         end; eexists _, _; split; reflexivity.
Qed.

Lemma logs_one_silent (c : M unit) : silent c -> logs_one c.
Proof.
  intros Hc w. destruct (Hc w) as ([] & w' & Hrun & Hh).
  exists w', []. repeat split; auto.
Qed.

Lemma logs_one_addHistoryEntry (type itemType itemId itemTitle : string)
    (changes : Changes) (group : option string) :
  type <> "progress-snapshot" ->
  logs_one (addHistoryEntry genId isoNow type itemType itemId itemTitle changes group).
Proof.
  intros Ht w. rewrite addHistoryEntry_run.
  eexists _, [_]. split; [reflexivity|]. split; [simpl; lia|].
  split; [|reflexivity]. constructor; [exact Ht | constructor].
Qed.

Lemma logs_one_when (c : bool) (body : M unit) : logs_one body -> logs_one (when c body).
Proof. destruct c; [trivial | intros _; apply logs_one_silent, silent_ret]. Qed.

Lemma logs_one_bind_silent {A : Type} (c : M A) (k : A -> M unit) :
  silent c -> (forall a, logs_one (k a)) -> logs_one (bind c k).
Proof.
  intros Hc Hk w. destruct (Hc w) as (a & w1 & Hrun & Hh).
  destruct (Hk a w1) as (w2 & logged & Hrun2 & Hlen & Hty & Hh2).
  exists w2, logged. unfold bind. rewrite Hrun, Hrun2.
  split; [reflexivity|]. split; [exact Hlen|]. split; [exact Hty|]. now rewrite Hh2, Hh.
Qed.

Lemma logs_one_then_silent (c : M unit) (k : M unit) :
  logs_one c -> silent k -> logs_one (c ;; k).
Proof.
  intros Hc Hk w. destruct (Hc w) as (w1 & logged & Hrun & Hlen & Hty & Hh).
  destruct (Hk w1) as ([] & w2 & Hrun2 & Hh2).
  exists w2, logged. unfold bind. rewrite Hrun, Hrun2.
  split; [reflexivity|]. split; [exact Hlen|]. split; [exact Hty|]. now rewrite Hh2, Hh.
Qed.

Lemma snapshot_last_intro (c tail : M unit) (w : World) :
  logs_one c -> (forall w, tail w = Return tt w) ->
  snapshot_last_at genId isoNow (c ;; recordProgressSnapshot genId isoNow ;; tail) w.
Proof.
  intros Hc Htail. destruct (Hc w) as (w1 & logged & Hrun & Hlen & Hty & Hh).
  exists logged, w1. unfold bind. rewrite Hrun, recordProgressSnapshot_returns, Htail.
  auto.
Qed.

Lemma snapshot_last_assoc (c1 c2 k : M unit) (w : World) :
  snapshot_last_at genId isoNow ((c1 ;; c2) ;; k) w ->
  snapshot_last_at genId isoNow (c1 ;; c2 ;; k) w.
Proof.
  intros (logged & w1 & Hlen & Hty & Hh & Hrun). exists logged, w1.
  split; [exact Hlen|]. split; [exact Hty|]. split; [exact Hh|].
  rewrite <- Hrun. unfold bind. destruct (c1 w); reflexivity.
Qed.

Lemma snapshot_last_gets {A : Type} (f : World -> A) (k : A -> M unit) (w : World) :
  snapshot_last_at genId isoNow (k (f w)) w ->
  snapshot_last_at genId isoNow (bind (gets f) k) w.
Proof. exact (fun H => H). Qed.

Lemma snapshot_last_get_objectives (k : list Objective -> M unit) (w : World) :
  snapshot_last_at genId isoNow (k (objectives (data w))) w ->
  snapshot_last_at genId isoNow (bind get_objectives k) w.
Proof. exact (fun H => H). Qed.

Ltac logging :=
  repeat first
    [ apply silent_ret | apply silent_get_objectives | apply silent_gets
    | apply silent_modify_objective | apply silent_modify_kr
    | apply silent_modify_objectives
    | apply silent_generateId | apply silent_Date
    | apply silent_autoBalanceObjectiveWeights | apply silent_balanceOtherObjectives
    | apply silent_autoBalanceKRWeights | apply silent_balanceOtherKRs
    | apply silent_when
    | apply silent_bind; [|intros ?]
    | apply logs_one_addHistoryEntry; discriminate
    | apply logs_one_when
    | match goal with
      | |- logs_one (match ?x with _ => _ end) => destruct x
      | |- silent (match ?x with _ => _ end) => destruct x
      | |- logs_one (bind ?c _) =>
          first [ apply logs_one_bind_silent; [solve [logging] | intros ?]
                | apply logs_one_then_silent; [|solve [logging]] ]
      end
    | apply logs_one_silent ].

Lemma saveObjective_snapshot_last (formData : ObjectiveForm) (w : World) :
  fileHandle w = true ->
  snapshot_last_at genId isoNow (saveObjective genId isoNow formData) w.
Proof.
  intros Hfh. unfold saveObjective. apply snapshot_last_gets. rewrite Hfh. cbn [negb].
  apply snapshot_last_intro; [|reflexivity].
  logging.
Qed.

Lemma deleteObjective_snapshot_last (objectiveId : string) (w : World) :
  snapshot_last_at genId isoNow (deleteObjective genId isoNow true objectiveId) w.
Proof.
  unfold deleteObjective. cbn [negb]. apply snapshot_last_get_objectives.
  apply snapshot_last_assoc.
  apply snapshot_last_intro; [|reflexivity].
  logging.
Qed.

Lemma saveKeyResult_snapshot_last (objectiveId title : string) (target : Z)
    (startDate targetDate : string) (weight : Z)
    (status confidence lastCheckin evidence comments : string) (editId : option string)
    (objective : Objective) (w : World) :
  List.find (fun o => String.eqb (id o) objectiveId) (objectives (data w)) = Some objective ->
  snapshot_last_at genId isoNow
    (saveKeyResult genId isoNow objectiveId title target startDate targetDate weight status
       confidence lastCheckin evidence comments editId) w.
Proof.
  intros Hobj. unfold saveKeyResult. apply snapshot_last_get_objectives. rewrite Hobj.
  apply snapshot_last_assoc.
  apply snapshot_last_intro; [|reflexivity].
  logging.
Qed.

Lemma updateKR_snapshot_last (objectiveId krId : string) (delta : Z)
    (objective : Objective) (krs : list KeyResult) (kr : KeyResult) (w : World) :
  List.find (fun o => String.eqb (id o) objectiveId) (objectives (data w)) = Some objective ->
  keyResults objective = Some krs ->
  List.find (fun k => String.eqb (kr_id k) krId) krs = Some kr ->
  snapshot_last_at genId isoNow (updateKR genId isoNow objectiveId krId delta) w.
Proof.
  intros Hobj Hkrs Hkr. unfold updateKR. apply snapshot_last_get_objectives.
  rewrite Hobj, Hkrs, Hkr. cbv zeta.
  apply snapshot_last_assoc.
  apply snapshot_last_intro; [|reflexivity].
  logging.
Qed.

Lemma deleteKR_snapshot_last (objectiveId krId : string)
    (objective : Objective) (krs : list KeyResult) (w : World) :
  List.find (fun o => String.eqb (id o) objectiveId) (objectives (data w)) = Some objective ->
  keyResults objective = Some krs ->
  snapshot_last_at genId isoNow (deleteKR genId isoNow objectiveId krId) w.
Proof.
  intros Hobj Hkrs. unfold deleteKR. apply snapshot_last_get_objectives.
  rewrite Hobj, Hkrs.
  apply snapshot_last_assoc.
  apply snapshot_last_intro; [|reflexivity].
  logging.
Qed.

Lemma balance_silent (objectiveId : string) :
  silent balanceObjectiveWeights /\ silent (balanceKRWeights objectiveId).
Proof. split; unfold balanceObjectiveWeights, balanceKRWeights; logging. Qed.

End Logging.

(** C9 (as the code has it).  [recordProgressSnapshot] never throws and
    never touches the objectives.  With no Objective present it changes
    nothing.  With at least one it pushes exactly one entry onto the capped
    log, of type [progress-snapshot], itemType ["system"], itemId ["all"],
    title ["Progress Snapshot"] and group [null]; its payload is keyed by
    Objective id and holds nothing else; with unique ids it holds for
    every Objective its title, its group (["Personal"] when empty) and its
    computed progress, and there, keyed by Key Result id, for every Key
    Result its title, progress, current and target.  [saveObjective] (with a
    file open), a confirmed [deleteObjective], [saveKeyResult] and
    [deleteKR] on an existing Objective and [updateKR] on an existing Key
    Result all end with it, after logging at most one entry of their own;
    the two balance-all operations do not record a snapshot. *)
Theorem C9_record_snapshot :
  forall (genId isoNow : nat -> string) (w : World),
    let w' := exec (recordProgressSnapshot genId isoNow) w in
    let objs := objectives (data w) in
    throws (recordProgressSnapshot genId isoNow) w = false /\
    objectives (data w') = objs /\
    (objs = [] -> w' = w) /\
    (objs <> [] ->
       exists (e : HistoryEntry) (s : Snapshot),
         history (data w') = unshift_capped e (history (data w)) /\
         h_type e = "progress-snapshot" /\ h_itemType e = "system" /\
         h_itemId e = "all" /\ h_itemTitle e = "Progress Snapshot" /\
         h_group e = None /\ h_changes e = SnapshotPayload s /\
         (forall i, ~ In i (map id objs) -> snap_objectives s !! i = None) /\
         (NoDup (map id objs) ->
          forall obj, In obj objs ->
            exists os,
              snap_objectives s !! id obj = Some os /\
              os_title os = title obj /\
              os_group os = or_else (group obj) "Personal" /\
              os_progress os = calculateProgress obj /\
              (keyResults obj = None -> os_keyResults os = ∅) /\
              (forall krs, keyResults obj = Some krs ->
                 (forall i, ~ In i (map kr_id krs) -> os_keyResults os !! i = None) /\
                 (NoDup (map kr_id krs) ->
                  forall kr, In kr krs ->
                    os_keyResults os !! kr_id kr
                    = Some (mkKRSnapshot (kr_title kr)
                              (krProgress (kr_current kr) (kr_target kr))
                              (kr_current kr) (kr_target kr)))))) /\
    (forall formData,
        fileHandle w = true ->
        snapshot_last_at genId isoNow (saveObjective genId isoNow formData) w) /\
    (forall objectiveId,
        snapshot_last_at genId isoNow (deleteObjective genId isoNow true objectiveId) w) /\
    (forall objectiveId objective,
        List.find (fun o => String.eqb (id o) objectiveId) objs = Some objective ->
        (forall title target startDate targetDate weight status confidence lastCheckin
                evidence comments editId,
            snapshot_last_at genId isoNow
              (saveKeyResult genId isoNow objectiveId title target startDate targetDate
                 weight status confidence lastCheckin evidence comments editId) w) /\
        (forall krs,
            keyResults objective = Some krs ->
            (forall krId, snapshot_last_at genId isoNow (deleteKR genId isoNow objectiveId krId) w) /\
            (forall krId kr delta,
                List.find (fun k => String.eqb (kr_id k) krId) krs = Some kr ->
                snapshot_last_at genId isoNow (updateKR genId isoNow objectiveId krId delta) w))) /\
    history (data (exec balanceObjectiveWeights w)) = history (data w) /\
    (forall objectiveId,
        history (data (exec (balanceKRWeights objectiveId) w)) = history (data w)).
Proof.
  intros genId isoNow w w' objs.
  split; [unfold throws; now rewrite recordProgressSnapshot_returns|].
  split; [apply objectives_recordProgressSnapshot|].
  split.
  { intros Hnil. subst w' objs. unfold exec. rewrite recordProgressSnapshot_run.
    now rewrite Hnil. }
  split.
  { intros Hne. exists (snapshot_entry genId isoNow w), (snapshot_payload isoNow w).
    split.
    { subst w'. rewrite history_recordProgressSnapshot.
      fold objs. destruct objs; [contradiction | reflexivity]. }
    do 6 (split; [reflexivity|]).
    split.
    { intros i Hi. unfold snapshot_payload; cbn. fold objs.
      rewrite (fold_insert_other id snapshot_of_objective objs ∅ i Hi).
      apply lookup_empty. }
    intros Hnd obj Hobj. exists (snapshot_of_objective obj).
    split.
    { unfold snapshot_payload; cbn. fold objs.
      apply (fold_insert_lookup id snapshot_of_objective objs ∅ obj Hnd Hobj). }
    do 3 (split; [reflexivity|]).
    split; [intros Hk; cbn; now rewrite Hk|].
    intros krs Hk. cbn. rewrite Hk. split.
    - intros i Hi. rewrite (fold_insert_other kr_id snapshot_of_kr krs ∅ i Hi).
      apply lookup_empty.
    - intros Hndk kr Hkr.
      apply (fold_insert_lookup kr_id snapshot_of_kr krs ∅ kr Hndk Hkr). }
  split; [intros; now apply saveObjective_snapshot_last|].
  split; [intros; apply deleteObjective_snapshot_last|].
  split.
  { intros objectiveId objective Hobj. split.
    - intros. eapply saveKeyResult_snapshot_last; exact Hobj.
    - intros krs Hkrs. split.
      + intros krId. eapply deleteKR_snapshot_last; eassumption.
      + intros krId kr delta Hkr. eapply updateKR_snapshot_last; eassumption. }
  split.
  - destruct (proj1 (balance_silent EmptyString) w) as ([] & w1 & Hrun & Hh).
    unfold exec. now rewrite Hrun.
  - intros objectiveId.
    destruct (proj2 (balance_silent objectiveId) w) as ([] & w1 & Hrun & Hh).
    unfold exec. now rewrite Hrun.
Qed.

(** C9, the claim as written fails: the snapshot entry carries ["all"] as
    its itemId, and its group is [null], not ["all"]. *)
Lemma C9_counterexample :
  let w' := exec (recordProgressSnapshot demo_genId demo_isoNow) world_one in
  option_map h_type (head (history (data w'))) = Some "progress-snapshot" /\
  option_map h_itemId (head (history (data w'))) = Some "all" /\
  option_map h_group (head (history (data w'))) = Some None /\
  option_map h_group (head (history (data w'))) <> Some (Some "all").
Proof.
  split; [vm_compute; reflexivity|].
  split; [vm_compute; reflexivity|].
  split; [vm_compute; reflexivity|].
  vm_compute. discriminate.
Qed.

(** ** The [current] invariant *)

Lemma Forall_mutate_first {A : Type} (P : A -> Prop) (p : A -> bool) (f : A -> A)
    (l : list A) :
  Forall P l -> (forall x, List.find p l = Some x -> P x -> P (f x)) ->
  Forall P (mutate_first p f l).
Proof.
  induction 1 as [|y l Hy Hl IH]; simpl; [constructor|].
  intros Hf. destruct (p y) eqn:E.
  - constructor; [apply Hf; auto | exact Hl].
  - constructor; [exact Hy | apply IH; exact Hf].
Qed.

Lemma Forall_imap_same {A : Type} (P : A -> Prop) (f : nat -> A -> A) (l : list A) :
  (forall i x, P x -> P (f i x)) -> Forall P l -> Forall P (imap f l).
Proof.
  intros Hf H. revert f Hf. induction H as [|y l Hy Hl IH]; intros f Hf; simpl;
    constructor; auto.
  apply IH. intros i x. apply Hf.
Qed.

Lemma Forall_forEach_filtered {A : Type} (P : A -> Prop) (p : A -> bool)
    (f : nat -> A -> A) (k : nat) (l : list A) :
  (forall i x, P x -> P (f i x)) -> Forall P l -> Forall P (forEach_filtered p f k l).
Proof.
  intros Hf H. revert k. induction H as [|y l Hy Hl IH]; intros k; simpl; [constructor|].
  destruct (p y); constructor; auto.
Qed.

Lemma Forall_list_filter {A : Type} (P : A -> Prop) (p : A -> bool) (l : list A) :
  Forall P l -> Forall P (List.filter p l).
Proof.
  induction 1 as [|y l Hy Hl IH]; simpl; [constructor|].
  destruct (p y); [constructor|]; auto.
Qed.

Lemma Forall_find {A : Type} (P : A -> Prop) (p : A -> bool) (l : list A) (x : A) :
  Forall P l -> List.find p l = Some x -> P x.
Proof.
  induction 1 as [|y l Hy Hl IH]; simpl; [discriminate|].
  destruct (p y); [now intros [= <-] | exact IH].
Qed.

Section Invariant.

Variable genId : nat -> string.
Variable isoNow : nat -> string.

Lemma keeps_ret {A : Type} (a : A) : keeps (ret a).
Proof. intros w H. exact H. Qed.

Lemma keeps_gets {A : Type} (f : World -> A) : keeps (gets f).
Proof. intros w H. exact H. Qed.

Lemma keeps_get_objectives : keeps get_objectives.
Proof. intros w H. exact H. Qed.

Lemma keeps_throwTypeError {A : Type} : keeps (@throwTypeError A).
Proof. intros w H. exact H. Qed.

Lemma keeps_generateId : keeps (generateId genId).
Proof. intros w H. exact H. Qed.

Lemma keeps_Date : keeps (Date_toISOString isoNow).
Proof. intros w H. exact H. Qed.

Lemma keeps_bind {A B : Type} (c : M A) (k : A -> M B) :
  keeps c -> (forall a, keeps (k a)) -> keeps (bind c k).
Proof.
  intros Hc Hk w H. specialize (Hc w H). unfold exec, bind in *.
  destruct (c w) as [a w1|w1]; [apply (Hk a w1 Hc) | exact Hc].
Qed.

Lemma keeps_when (c : bool) (body : M unit) : keeps body -> keeps (when c body).
Proof. destruct c; [trivial | intros _; apply keeps_ret]. Qed.

Lemma keeps_addHistoryEntry (type itemType itemId itemTitle : string)
    (changes : Changes) (group : option string) :
  keeps (addHistoryEntry genId isoNow type itemType itemId itemTitle changes group).
Proof. intros w H. unfold exec. rewrite addHistoryEntry_run. exact H. Qed.

Lemma keeps_recordProgressSnapshot : keeps (recordProgressSnapshot genId isoNow).
Proof.
  intros w H. unfold current_invariant. now rewrite objectives_recordProgressSnapshot.
Qed.

Lemma keeps_modify_objectives (f : list Objective -> list Objective) :
  (forall objs, Forall krs_in_range objs -> Forall krs_in_range (f objs)) ->
  keeps (modify_objectives f).
Proof. intros Hf w H. apply Hf, H. Qed.

Lemma keeps_modify_objective (objectiveId : string) (f : Objective -> Objective) :
  (forall o, krs_in_range o -> krs_in_range (f o)) ->
  keeps (modify_objective objectiveId f).
Proof.
  intros Hf. apply keeps_modify_objectives. intros objs H.
  apply Forall_mutate_first; auto.
Qed.

Lemma keeps_autoBalanceObjectiveWeights : keeps autoBalanceObjectiveWeights.
Proof.
  intros w H. unfold autoBalanceObjectiveWeights, exec, bind, get_objectives, gets.
  destruct (length (objectives (data w)) =? 0)%nat; [exact H|].
  apply Forall_imap_same; [|exact H]. intros i o Ho. exact Ho.
Qed.

Lemma keeps_balanceOtherObjectives (editedId : string) (manualWeight : Z) :
  keeps (balanceOtherObjectives editedId manualWeight).
Proof.
  intros w H. unfold balanceOtherObjectives, exec, bind, get_objectives, gets.
  repeat match goal with
         | |- context [if ?c then _ else _] => destruct c
         end; try exact H.
  apply Forall_forEach_filtered; [|exact H]. intros i o Ho. exact Ho.
Qed.

Lemma krs_in_range_weights (g : nat -> Z) (krs : list KeyResult) :
  Forall kr_in_range krs ->
  Forall kr_in_range (imap (fun index kr => set_kr_weight (g index) kr) krs).
Proof. apply Forall_imap_same. intros i k Hk. exact Hk. Qed.

Lemma keeps_autoBalanceKRWeights (objectiveId : string) :
  keeps (autoBalanceKRWeights objectiveId).
Proof.
  intros w H. unfold autoBalanceKRWeights, exec, bind, get_objectives, gets.
  destruct (List.find _ _) as [obj|] eqn:Hobj; [|exact H].
  destruct (keyResults obj) as [krs|] eqn:Hkrs; [|exact H].
  destruct (length krs =? 0)%nat; [exact H|].
  pose proof (Forall_find _ _ _ _ H Hobj) as Ho. unfold krs_in_range in Ho.
  rewrite Hkrs in Ho.
  apply (keeps_modify_objective objectiveId); [|exact H].
  intros o' _. unfold krs_in_range. cbn. now apply krs_in_range_weights.
Qed.

Lemma keeps_balanceOtherKRs (objectiveId editedKRId : string) (manualWeight : Z) :
  keeps (balanceOtherKRs objectiveId editedKRId manualWeight).
Proof.
  intros w H. unfold balanceOtherKRs, exec, bind, get_objectives, gets.
  destruct (List.find _ _) as [obj|] eqn:Hobj; [|exact H].
  destruct (keyResults obj) as [krs|] eqn:Hkrs; [|exact H].
  pose proof (Forall_find _ _ _ _ H Hobj) as Ho. unfold krs_in_range in Ho.
  rewrite Hkrs in Ho.
  repeat match goal with
         | |- context [if ?c then _ else _] => destruct c
         end; try exact H.
  apply (keeps_modify_objective objectiveId); [|exact H].
  intros o' _. unfold krs_in_range. cbn.
  apply Forall_forEach_filtered; [|exact Ho]. intros i k Hk. exact Hk.
Qed.

Ltac keeping :=
  repeat first
    [ apply keeps_ret | apply keeps_get_objectives | apply keeps_gets
    | apply keeps_throwTypeError | apply keeps_generateId | apply keeps_Date
    | apply keeps_addHistoryEntry | apply keeps_recordProgressSnapshot
    | apply keeps_autoBalanceObjectiveWeights | apply keeps_balanceOtherObjectives
    | apply keeps_autoBalanceKRWeights | apply keeps_balanceOtherKRs
    | apply keeps_when
    | apply keeps_bind; [|intros ?]
    | match goal with
      | |- keeps (match ?x with _ => _ end) => destruct x
      end ].

Lemma keeps_saveObjective (formData : ObjectiveForm) :
  keeps (saveObjective genId isoNow formData).
Proof.
  unfold saveObjective. keeping.
  - apply keeps_modify_objective. intros x Hx. exact Hx.
  - apply keeps_modify_objectives. intros objs H.
    apply Forall_app. split; [exact H|].
    constructor; [unfold krs_in_range; cbn; constructor | constructor].
Qed.

Lemma keeps_deleteObjective (confirmed : bool) (objectiveId : string) :
  keeps (deleteObjective genId isoNow confirmed objectiveId).
Proof.
  unfold deleteObjective. keeping.
  apply keeps_modify_objectives. intros objs. apply Forall_list_filter.
Qed.

Lemma keeps_at_get_objectives {A : Type} (k : list Objective -> M A) (w : World) :
  (current_invariant w -> current_invariant (exec (k (objectives (data w))) w)) ->
  current_invariant w -> current_invariant (exec (bind get_objectives k) w).
Proof. exact (fun H => H). Qed.

Ltac keeps_rest H :=
  match goal with
  | |- current_invariant (exec ?c ?w) =>
      let Hk := fresh "Hk" in
      enough (Hk : keeps c) by exact (Hk w H)
  end.

Lemma keeps_saveKeyResult (objectiveId title : string) (target : Z)
    (startDate targetDate : string) (weight : Z)
    (status confidence lastCheckin evidence comments : string) (editId : option string) :
  0 <= target ->
  keeps (saveKeyResult genId isoNow objectiveId title target startDate targetDate weight
           status confidence lastCheckin evidence comments editId).
Proof.
  intros Ht w. unfold saveKeyResult. apply keeps_at_get_objectives. intros H.
  destruct (List.find _ _) as [objective|] eqn:Hobj; [|exact H].
  pose proof (Forall_find _ _ _ _ H Hobj) as Ho. unfold krs_in_range in Ho.
  keeps_rest H. keeping.
  - apply keeps_modify_objective. intros x _. unfold krs_in_range; cbn.
    destruct (keyResults objective); [exact Ho | constructor].
  - unfold modify_kr. apply keeps_modify_objective. intros x Hx.
    unfold krs_in_range in *; cbn. destruct (keyResults x); cbn; [|trivial].
    apply Forall_mutate_first; [exact Hx|].
    intros k' _ Hk'. unfold kr_in_range in *; cbn. lia.
  - apply keeps_modify_objective. intros x Hx.
    unfold krs_in_range in *; cbn. apply Forall_app. split.
    + destruct (keyResults x); [exact Hx | constructor].
    + constructor; [unfold kr_in_range; cbn; lia | constructor].
Qed.

Lemma keeps_updateKR (objectiveId krId : string) (delta : Z) :
  keeps (updateKR genId isoNow objectiveId krId delta).
Proof.
  intros w. unfold updateKR. apply keeps_at_get_objectives. intros H.
  destruct (List.find _ _) as [objective|] eqn:Hobj; [|exact H].
  destruct (keyResults objective) as [krs|] eqn:Hkrs; [|exact H].
  destruct (List.find _ krs) as [kr|] eqn:Hkr; [|exact H].
  pose proof (Forall_find _ _ _ _ H Hobj) as Ho. unfold krs_in_range in Ho.
  rewrite Hkrs in Ho.
  pose proof (Forall_find _ _ _ _ Ho Hkr) as Hr. unfold kr_in_range in Hr.
  cbv zeta.
  match goal with
  | |- current_invariant (exec (bind ?c ?k) w) =>
      assert (H1 : current_invariant (exec c w)); [|generalize H1; clear H H1]
  end.
  - apply Forall_mutate_first; [exact H|].
    intros x Hx _. rewrite Hobj in Hx. injection Hx as <-.
    unfold krs_in_range; cbn. rewrite Hkrs; cbn.
    apply Forall_mutate_first; [exact Ho|].
    intros k' Hk' _. rewrite Hkr in Hk'. injection Hk' as <-.
    unfold kr_in_range; cbn. lia.
  - intros H1. unfold exec at 1. unfold bind at 1. unfold modify_kr, modify_objective,
      modify_objectives in *. cbn [exec] in H1.
    match goal with
    | |- current_invariant (match ?k ?a ?w1 with _ => _ end) =>
        change (current_invariant (exec (k a) w1))
    end.
    keeps_rest H1. keeping.
Qed.

Lemma keeps_deleteKR (objectiveId krId : string) :
  keeps (deleteKR genId isoNow objectiveId krId).
Proof.
  intros w. unfold deleteKR. apply keeps_at_get_objectives. intros H.
  destruct (List.find _ _) as [objective|] eqn:Hobj; [|exact H].
  destruct (keyResults objective) as [krs|] eqn:Hkrs; [|exact H].
  pose proof (Forall_find _ _ _ _ H Hobj) as Ho. unfold krs_in_range in Ho.
  rewrite Hkrs in Ho.
  keeps_rest H. keeping.
  apply keeps_modify_objective. intros x _. unfold krs_in_range; cbn.
  now apply Forall_list_filter.
Qed.

Lemma keeps_step (op : Op) :
  target_nonneg op = true -> keeps (step genId isoNow op).
Proof.
  destruct op; cbn [step target_nonneg]; intros Ht.
  - apply keeps_saveObjective.
  - apply keeps_deleteObjective.
  - apply keeps_saveKeyResult. lia.
  - apply keeps_updateKR.
  - apply keeps_deleteKR.
  - unfold balanceObjectiveWeights. keeping.
  - unfold balanceKRWeights. keeping.
Qed.

Lemma run_invariant (ops : list Op) (w : World) :
  forallb target_nonneg ops = true ->
  current_invariant w -> current_invariant (run genId isoNow ops w).
Proof.
  revert w. induction ops as [|op ops IH]; intros w Hops H; [exact H|].
  cbn in Hops. apply andb_prop in Hops as [Hop Hops].
  cbn. apply IH; [exact Hops|]. now apply keeps_step.
Qed.

End Invariant.

(** C4 (as the code has it).  When every target handed to [saveKeyResult]
    is non-negative, [0 <= current <= target] holds for every Key Result of
    every Document that a sequence of engine operations (add, edit,
    [updateKR], the deletions and the balance operations) produces from a
    Document where it holds; it holds in the empty Document. *)
Theorem C4_current_within_target :
  current_invariant empty_world /\
  (forall (genId isoNow : nat -> string) (ops : list Op) (w : World),
      current_invariant w ->
      forallb target_nonneg ops = true ->
      current_invariant (run genId isoNow ops w) /\
      (forall o krs kr,
          In o (objectives (data (run genId isoNow ops w))) ->
          keyResults o = Some krs -> In kr krs ->
          0 <= kr_current kr <= kr_target kr)).
Proof.
  split; [constructor|].
  intros genId isoNow ops w Hw Hops.
  pose proof (run_invariant genId isoNow ops w Hops Hw) as H.
  split; [exact H|].
  intros o krs kr Ho Hkrs Hkr.
  unfold current_invariant in H.
  pose proof (proj1 (List.Forall_forall _ _) H o Ho) as Hr.
  unfold krs_in_range in Hr. rewrite Hkrs in Hr.
  exact (proj1 (List.Forall_forall _ _) Hr kr Hkr).
Qed.

(** C4, the claim as written fails: [saveKeyResult] accepts the target
    [-5], and the Key Result it adds has [current = 0], above its
    target. *)
Lemma C4_counterexample :
  let w := demo_run [OpSaveObjective (demo_form None "Ship" 100);
                     demo_add_kr "id1" "Churn" (-5)] empty_world in
  map (fun o => option_map (map (fun kr => (kr_current kr, kr_target kr))) (keyResults o))
    (objectives (data w)) = [Some [(0, -5)]] /\
  ~ current_invariant w.
Proof.
  split; [vm_compute; reflexivity|].
  intros H. unfold current_invariant in H. vm_compute in H.
  inversion H as [|? ? Hk _]. inversion Hk as [|? ? Hr _].
  destruct Hr as [_ Hr]. apply Hr. reflexivity.
Qed.

(** ** The theorems at concrete Documents *)

(** C1 at three Objectives weighted 10/20/70: they end at 34/33/33. *)
Lemma C1_witness :
  map weight (objectives (data (exec autoBalanceObjectiveWeights world_unbalanced)))
  = [34; 33; 33].
Proof.
  destruct (proj1 C1_equal_auto_balance world_unbalanced) as [_ H].
  destruct (H ltac:(simpl; lia)) as [Hw _].
  rewrite Hw. reflexivity.
Defined.


(** C3 at Key Results 57/100 and 58/100. *)
Lemma C3_witness :
  calculateProgress objective_57_58
  = Math_min (ofZ 100)
      (Math_round
         (Spec.mean (map Spec.raw_ratio [demo_kr "k1" 57 100; demo_kr "k2" 58 100]))) /\
  exists p, calculateProgress objective_57_58 = ofZ p /\ 0 <= p <= 100.
Proof.
  destruct (proj1 C3_objective_progress objective_57_58) as (_ & Hmean & Hrange).
  split.
  - apply Hmean.
    + reflexivity.
    + discriminate.
  - apply (Hrange [demo_kr "k1" 57 100; demo_kr "k2" 58 100]).
    + reflexivity.
    + repeat constructor; simpl; lia.
Defined.

(** C4 along a run that adds a Key Result with target 25, moves it up
    past the target and down past 0, then lowers its target to 5. *)
Lemma C4_witness :
  current_invariant
    (demo_run [OpSaveObjective (demo_form None "Ship" 100);
               demo_add_kr "id1" "Tests" 25;
               OpUpdateKR "id1" "id8" 10; OpUpdateKR "id1" "id8" 10;
               OpUpdateKR "id1" "id8" 10; OpUpdateKR "id1" "id8" (-40);
               OpUpdateKR "id1" "id8" 10;
               OpSaveKeyResult "id1" "Tests" 5 "2026-01-01" "2026-03-31" 100 "on-track"
                 "High" "" "" "" (Some "id8")]
       empty_world).
Proof.
  destruct C4_current_within_target as [Hempty H].
  apply (H demo_genId demo_isoNow _ empty_world Hempty).
  reflexivity.
Defined.

(** C5 at the empty log. *)
Lemma C5_witness :
  history (data (exec (addHistoryEntry demo_genId demo_isoNow "created" "objective" "o1"
                         "Ship" Created (Some "Team")) empty_world))
  = [mkHistoryEntry "id0" "2026-01-01T00:00:00.1Z" "created" "objective" "o1" "Ship"
       Created (Some "Team")].
Proof.
  destruct (C5_history_cap demo_genId demo_isoNow "created" "objective" "o1" "Ship"
              Created (Some "Team") empty_world) as (_ & _ & _ & _ & _ & _ & H).
  rewrite H; [reflexivity | simpl; lia].
Defined.

(** C8 at a Document with one Objective and an id it does not hold. *)
Lemma C8_witness :
  runs_to (updateKR demo_genId demo_isoNow "missing" "k1" 10) world_one world_one /\
  runs_to (deleteObjective demo_genId demo_isoNow true "missing") world_one
    (exec (recordProgressSnapshot demo_genId demo_isoNow) world_one).
Proof.
  destruct (C8_missing_id demo_genId demo_isoNow world_one) as (_ & H & _).
  destruct (H "missing" ltac:(vm_compute; reflexivity)) as (_ & Hdel & _ & Hupd & _).
  split; [apply Hupd | apply (Hdel true)].
Defined.

(** C9 at a Document with one Objective. *)
Lemma C9_witness :
  exists e s,
    history (data (exec (recordProgressSnapshot demo_genId demo_isoNow) world_one))
    = unshift_capped e (history (data world_one)) /\
    h_group e = None /\ h_changes e = SnapshotPayload s /\
    snap_objectives s !! "missing" = None.
Proof.
  destruct (C9_record_snapshot demo_genId demo_isoNow world_one) as (_ & _ & _ & H & _).
  destruct (H ltac:(vm_compute; discriminate))
    as (e & s & Hh & _ & _ & _ & _ & Hg & Hc & Hnone & _).
  exists e, s. split; [exact Hh|]. split; [exact Hg|]. split; [exact Hc|].
  apply Hnone. vm_compute. intuition discriminate.
Defined.

(** C10 at a Key Result with target 100 and current 0, moved by 10. *)
Lemma C10_witness :
  throws (updateKR demo_genId demo_isoNow "id1" "id8" 10) world_kr = false /\
  option_map (map kr_current)
    (keyResults_of "id1" (exec (updateKR demo_genId demo_isoNow "id1" "id8" 10) world_kr))
  = Some [10].
Proof.
  edestruct (C10_updateKR_progress_entry demo_genId demo_isoNow world_kr "id1" "id8" 10)
    as (Hthrow & _).
  - vm_compute. reflexivity.
  - vm_compute. reflexivity.
  - vm_compute. reflexivity.
  - split; [exact Hthrow | vm_compute; reflexivity].
Defined.

(** * Further theorems *)

(** ** The history log across operations *)

Lemma take_unshift_capped (entry : HistoryEntry) (l : list HistoryEntry) :
  unshift_capped entry (take 1000 l) = take 1000 (entry :: l).
Proof.
  rewrite unshift_capped_take. cbn [take]. f_equal.
  rewrite take_take. f_equal.
Qed.

Lemma fold_unshift_capped_take (new h : list HistoryEntry) :
  (length h <= 1000)%nat ->
  fold_right unshift_capped h new = take 1000 (new ++ h).
Proof.
  intros Hh. induction new as [|e new IH]; cbn [fold_right app].
  - symmetry. now apply take_ge.
  - rewrite IH. apply take_unshift_capped.
Qed.

Lemma fold_unshift_capped_length (new h : list HistoryEntry) :
  (length h <= 1000)%nat -> (length (fold_right unshift_capped h new) <= 1000)%nat.
Proof.
  intros Hh. rewrite fold_unshift_capped_take by exact Hh.
  rewrite length_take. lia.
Qed.

Section Appending.

Variable genId : nat -> string.
Variable isoNow : nat -> string.

Lemma appends_weaken {A : Type} (n m : nat) (c : M A) :
  (n <= m)%nat -> appends_upto n c -> appends_upto m c.
Proof.
  intros Hnm Hc w. destruct (Hc w) as (new & Hlen & Hh).
  exists new. split; [lia | exact Hh].
Qed.

Lemma appends_quiet {A : Type} (n : nat) (c : M A) :
  (forall w, history (data (exec c w)) = history (data w)) -> appends_upto n c.
Proof. intros Hc w. exists []. split; [simpl; lia | apply Hc]. Qed.

Lemma appends_ret {A : Type} (n : nat) (a : A) : appends_upto n (ret a).
Proof. now apply appends_quiet. Qed.

Lemma appends_gets {A : Type} (n : nat) (f : World -> A) : appends_upto n (gets f).
Proof. now apply appends_quiet. Qed.

Lemma appends_get_objectives (n : nat) : appends_upto n get_objectives.
Proof. now apply appends_quiet. Qed.

Lemma appends_throwTypeError {A : Type} (n : nat) : appends_upto n (@throwTypeError A).
Proof. now apply appends_quiet. Qed.

Lemma appends_generateId (n : nat) : appends_upto n (generateId genId).
Proof. now apply appends_quiet. Qed.

Lemma appends_Date (n : nat) : appends_upto n (Date_toISOString isoNow).
Proof. now apply appends_quiet. Qed.

Lemma appends_modify_objectives (n : nat) (f : list Objective -> list Objective) :
  appends_upto n (modify_objectives f).
Proof. now apply appends_quiet. Qed.

Lemma appends_silent {A : Type} (n : nat) (c : M A) : silent c -> appends_upto n c.
Proof.
  intros Hc. apply appends_quiet. intros w.
  destruct (Hc w) as (a & w' & Hrun & Hh). unfold exec. now rewrite Hrun.
Qed.

Lemma appends_addHistoryEntry (n : nat) (type itemType itemId itemTitle : string)
    (changes : Changes) (group : option string) :
  appends_upto (S n)
    (addHistoryEntry genId isoNow type itemType itemId itemTitle changes group).
Proof.
  intros w. unfold exec. rewrite addHistoryEntry_run.
  eexists [_]. split; [simpl; lia | reflexivity].
Qed.

Lemma appends_recordProgressSnapshot (n : nat) :
  appends_upto (S n) (recordProgressSnapshot genId isoNow).
Proof.
  intros w. rewrite history_recordProgressSnapshot.
  destruct (is_nil (objectives (data w))).
  - exists []. split; [simpl; lia | reflexivity].
  - eexists [_]. split; [simpl; lia | reflexivity].
Qed.

Lemma appends_bind {A B : Type} (n m : nat) (c : M A) (k : A -> M B) :
  appends_upto n c -> (forall a, appends_upto m (k a)) -> appends_upto (n + m) (bind c k).
Proof.
  intros Hc Hk w. destruct (Hc w) as (new1 & Hlen1 & Hh1).
  unfold exec in Hh1 |- *. unfold bind. destruct (c w) as [a w1|w1].
  - destruct (Hk a w1) as (new2 & Hlen2 & Hh2). unfold exec in Hh2.
    exists (new2 ++ new1). split; [rewrite length_app; lia|].
    rewrite Hh2, Hh1. now rewrite fold_right_app.
  - exists new1. split; [lia | exact Hh1].
Qed.

Lemma appends_bind_quiet {A B : Type} (m : nat) (c : M A) (k : A -> M B) :
  appends_upto 0 c -> (forall a, appends_upto m (k a)) -> appends_upto m (bind c k).
Proof. intros Hc Hk. apply (appends_bind 0 m); assumption. Qed.

Lemma appends_bind_one {A B : Type} (m : nat) (c : M A) (k : A -> M B) :
  appends_upto 1 c -> (forall a, appends_upto m (k a)) -> appends_upto (S m) (bind c k).
Proof. intros Hc Hk. apply (appends_bind 1 m); assumption. Qed.

Lemma appends_when (n : nat) (c : bool) (body : M unit) :
  appends_upto n body -> appends_upto n (when c body).
Proof. destruct c; [trivial | intros _; apply appends_ret]. Qed.

Ltac appending :=
  repeat first
    [ apply appends_ret | apply appends_get_objectives | apply appends_gets
    | apply appends_throwTypeError | apply appends_generateId | apply appends_Date
    | apply appends_modify_objectives
    | apply appends_addHistoryEntry | apply appends_recordProgressSnapshot
    | apply appends_silent;
        first [ apply silent_autoBalanceObjectiveWeights
              | apply silent_balanceOtherObjectives
              | apply silent_autoBalanceKRWeights
              | apply silent_balanceOtherKRs ]
    | apply appends_when
    | match goal with
      | |- appends_upto _ (match ?x with _ => _ end) => destruct x
      | |- appends_upto _ (if ?x then _ else _) => destruct x
      | |- appends_upto _ (bind ?c _) =>
          first [ apply appends_bind_quiet; [solve [appending] | intros ?]
                | apply appends_bind_one; [solve [appending] | intros ?] ]
      end ].

Lemma appends_step (op : Op) : appends_upto 2 (step genId isoNow op).
Proof.
  destruct op; cbn [step];
    unfold saveObjective, deleteObjective, saveKeyResult, updateKR, deleteKR,
      balanceObjectiveWeights, balanceKRWeights, modify_kr, modify_objective,
      saveToFile, renderObjectives, updateDashboardCharts, alert;
    appending.
Qed.

Lemma appends_run (ops : list Op) (w : World) :
  exists new,
    (length new <= 2 * length ops)%nat /\
    history (data (run genId isoNow ops w)) = fold_right unshift_capped (history (data w)) new.
Proof.
  revert w. induction ops as [|op ops IH]; intros w.
  - exists []. split; [simpl; lia | reflexivity].
  - destruct (appends_step op w) as (new1 & Hlen1 & Hh1).
    destruct (IH (exec (step genId isoNow op) w)) as (new2 & Hlen2 & Hh2).
    exists (new2 ++ new1). split; [rewrite length_app; simpl; lia|].
    cbn [run fold_left]. change (fold_left _ ops ?w0) with (run genId isoNow ops w0).
    rewrite Hh2, Hh1. now rewrite fold_right_app.
Qed.

End Appending.

(** X1.  Whatever sequence of operations runs, the log it leaves is the old
    log with the new entries pushed in front and the whole cut to 1000
    entries: older entries are never altered or reordered, only dropped
    from the tail; every operation pushes at most two entries. *)
Theorem history_append_only :
  forall (genId isoNow : nat -> string) (ops : list Op) (w : World),
    (length (history (data w)) <= 1000)%nat ->
    exists new,
      (length new <= 2 * length ops)%nat /\
      history (data (run genId isoNow ops w)) = take 1000 (new ++ history (data w)).
Proof.
  intros genId isoNow ops w Hh.
  destruct (appends_run genId isoNow ops w) as (new & Hlen & Hrun).
  exists new. split; [exact Hlen|].
  rewrite Hrun. now apply fold_unshift_capped_take.
Qed.

(** X2.  A log of at most 1000 entries stays at most 1000 entries long
    through every sequence of operations, including those that throw. *)
Theorem history_cap_invariant :
  forall (genId isoNow : nat -> string) (ops : list Op) (w : World),
    (length (history (data w)) <= 1000)%nat ->
    (length (history (data (run genId isoNow ops w))) <= 1000)%nat.
Proof.
  intros genId isoNow ops w Hh.
  destruct (appends_run genId isoNow ops w) as (new & _ & Hrun).
  rewrite Hrun. now apply fold_unshift_capped_length.
Qed.

(** ** Bounds of the progress values *)

Lemma Math_round_ofZ (z : Z) : Math_round (ofZ z) = ofZ z.
Proof.
  unfold Math_round, ofZ. do 2 f_equal.
  unfold Qfloor, Qplus, inject_Z. cbn.
  change (Z.pos (1 * 2)) with 2.
  symmetry. apply (Z.div_unique _ 2 z 1); lia.
Qed.

Lemma add_ofZ (a b : Z) : Z.abs (a + b) < 2 ^ 53 -> add (ofZ a) (ofZ b) = ofZ (a + b).
Proof.
  intros H. unfold add, ofZ at 1 2. apply round_binary64_integer; [|exact H].
  now rewrite inject_Z_plus.
Qed.

Lemma mul_ofZ (a b : Z) : Z.abs (a * b) < 2 ^ 53 -> mul (ofZ a) (ofZ b) = ofZ (a * b).
Proof.
  intros H. unfold mul, ofZ at 1 2. apply round_binary64_integer; [|exact H].
  now rewrite inject_Z_mult.
Qed.

(** An exact quotient is not rounded. *)
Lemma div_ofZ (c n : Z) :
  n <> 0 -> Z.abs c < 2 ^ 53 -> div (ofZ (c * n)) (ofZ n) = ofZ c.
Proof.
  intros Hn Hc. unfold div, ofZ at 1 2. rewrite Qeq_bool_inject_Z_0 by exact Hn.
  apply round_binary64_integer; [|exact Hc].
  rewrite inject_Z_mult. field. intros H0. unfold Qeq in H0. cbn in H0. lia.
Qed.

Lemma ratio100_multiple (c target : Z) :
  target <> 0 -> Z.abs (c * 100) < 2 ^ 53 -> ratio100 (c * target) target = ofZ (c * 100).
Proof.
  intros Ht Hc. unfold ratio100. rewrite div_ofZ by lia. now apply mul_ofZ.
Qed.

Lemma sum_constant (c : Z) (l : list number) (a : Z) :
  0 <= a -> 0 <= c -> a + Z.of_nat (length l) * c < 2 ^ 53 ->
  Forall (fun x => x = ofZ c) l ->
  fold_left add l (ofZ a) = ofZ (a + Z.of_nat (length l) * c).
Proof.
  intros Ha Hc Hb H. revert a Ha Hb.
  induction H as [|x l -> _ IH]; intros a Ha Hb.
  - simpl. now rewrite Z.add_0_r.
  - cbn [fold_left]. cbn [length] in Hb |- *. rewrite Nat2Z.inj_succ in Hb |- *.
    rewrite add_ofZ by nia. rewrite IH by nia. f_equal. lia.
Qed.

(** X3.  The progress of a Key Result with a positive target and a
    non-negative current value is a whole percentage between 0 and 100
    (never [NaN] or infinite), whatever the binary64 rounding does; it is
    100 at the target and 0 at 0.  An Objective whose Key Results have all
    reached their targets is at 100, one whose Key Results are all at 0 is
    at 0. *)
Theorem progress_bounds :
  (forall current target : Z,
      0 < target -> 0 <= current ->
      exists r, krProgress current target = ofZ r /\ 0 <= r <= 100 /\
                (current = target -> r = 100) /\ (current = 0 -> r = 0)) /\
  (forall (obj : Objective) (krs : list KeyResult),
      keyResults obj = Some krs -> krs <> [] ->
      Z.of_nat (length krs) * 100 < 2 ^ 53 ->
      Forall (fun kr => kr_target kr <> 0 /\ kr_current kr = kr_target kr) krs ->
      calculateProgress obj = ofZ 100) /\
  (forall (obj : Objective) (krs : list KeyResult),
      keyResults obj = Some krs ->
      Forall (fun kr => kr_target kr <> 0 /\ kr_current kr = 0) krs ->
      calculateProgress obj = ofZ 0).
Proof.
  assert (Hmean : forall (c : Z) (krs : list KeyResult),
             krs <> [] -> 0 <= c -> Z.of_nat (length krs) * c < 2 ^ 53 ->
             Forall (fun kr => Spec.raw_ratio kr = ofZ c) krs ->
             Math_min (ofZ 100) (Math_round (Spec.mean (map Spec.raw_ratio krs)))
             = ofZ (Z.min 100 c)).
  { intros c krs Hne Hc Hb Hall. unfold Spec.mean, Spec.sum.
    assert (Hlen : 0 < Z.of_nat (length krs)) by (destruct krs; [contradiction | simpl; lia]).
    rewrite (sum_constant c) by
      (rewrite ?length_map; try lia; apply Forall_map; exact Hall).
    rewrite length_map, Z.add_0_l, (Z.mul_comm _ c), div_ofZ by nia.
    rewrite Math_round_ofZ. apply Math_min_ofZ. }
  split; [|split].
  - intros current target Ht Hc.
    destruct (round_cap_nonneg _ (ratio100_nonneg current target Ht Hc)) as (r & Hr & Hrange).
    exists r. fold (krProgress current target) in Hr.
    split; [exact Hr|]. split; [exact Hrange|]. split.
    + intros ->. unfold krProgress in Hr.
      replace target with (1 * target) in Hr at 1 by lia.
      rewrite ratio100_multiple, Math_round_ofZ, Math_min_ofZ in Hr by (cbn; lia).
      injection Hr as Hr. lia.
    + intros ->. unfold krProgress in Hr.
      change 0 with (0 * target) in Hr at 1.
      rewrite ratio100_multiple, Math_round_ofZ, Math_min_ofZ in Hr by (cbn; lia).
      injection Hr as Hr. lia.
  - intros obj krs Hkrs Hne Hb Hall.
    rewrite (calculateProgress_mean obj krs Hkrs Hne).
    apply (Hmean 100 krs Hne); [lia | exact Hb|].
    eapply Forall_impl; [exact Hall|]. cbn. intros k [Ht Hc].
    unfold Spec.raw_ratio. fold (ratio100 (kr_current k) (kr_target k)). rewrite Hc.
    replace (kr_target k) with (1 * kr_target k) at 1 by lia.
    apply ratio100_multiple; [exact Ht | cbn; lia].
  - intros obj krs Hkrs Hall. destruct krs as [|kr0 krs0].
    { unfold calculateProgress. now rewrite Hkrs. }
    rewrite (calculateProgress_mean obj _ Hkrs) by discriminate.
    apply (Hmean 0); [discriminate | lia | lia |].
    eapply Forall_impl; [exact Hall|]. cbn. intros k [Ht Hc].
    unfold Spec.raw_ratio. fold (ratio100 (kr_current k) (kr_target k)). rewrite Hc.
    change 0 with (0 * kr_target k) at 1.
    apply ratio100_multiple; [exact Ht | cbn; lia].
Qed.

(** ** Adding and deleting *)

Arguments autoBalanceObjectiveWeights : simpl never.
Arguments autoBalanceKRWeights : simpl never.

Lemma autoBalanceObjectiveWeights_run (fh : bool) (objs : list Objective)
    (h : list HistoryEntry) (clk : nat) :
  objs <> [] ->
  autoBalanceObjectiveWeights (mkWorld fh (mkData objs h) clk)
  = Return tt
      (mkWorld fh
         (mkData
            (imap (fun index obj =>
                     set_weight
                       (share (100 / Z.of_nat (length objs))
                          (100 - 100 / Z.of_nat (length objs) * Z.of_nat (length objs))
                          index) obj) objs) h) clk).
Proof.
  intros Hne. unfold autoBalanceObjectiveWeights, bind, get_objectives, gets; cbn.
  destruct objs; [contradiction | reflexivity].
Qed.

Lemma is_nil_imap {A B : Type} (f : nat -> A -> B) (l : list A) :
  is_nil (imap f l) = is_nil l.
Proof. destruct l; reflexivity. Qed.

(** X4.  Adding an Objective (with a file open) appends it after the
    existing ones, which keep their order and everything but their weight;
    the new Objective gets the generated id, no Key Results and the date
    part of the current time as [createdAt]; all weights, the new one
    included, are the equal split of 100 and sum to 100; the log gains a
    [created] entry for the new id and then the progress snapshot. *)
Theorem saveObjective_add :
  forall (genId isoNow : nat -> string) (w : World) (formData : ObjectiveForm),
    fileHandle w = true ->
    truthy (f_editId formData) = None ->
    let objs := objectives (data w) in
    let newObj :=
      mkObjective (genId (S (clock w))) (f_group formData) (f_year formData)
        (f_quarter formData) (f_title formData) (f_purpose formData)
        (f_startDate formData) (f_targetDate formData) 0 (f_lastCheckin formData)
        (Some []) (split_T_0 (isoNow (clock w))) in
    let w' := exec (saveObjective genId isoNow formData) w in
    let objs' := objectives (data w') in
    throws (saveObjective genId isoNow formData) w = false /\
    map (set_weight 0) objs' = map (set_weight 0) (objs ++ [newObj]) /\
    map weight objs' = split_evenly 100 (S (length objs)) /\
    Zsum (map weight objs') = 100 /\
    exists created snap,
      h_type created = "created" /\ h_itemType created = "objective" /\
      h_itemId created = id newObj /\ h_itemTitle created = f_title formData /\
      h_group created = Some (f_group formData) /\
      h_type snap = "progress-snapshot" /\
      history (data w') = unshift_capped snap (unshift_capped created (history (data w))).
Proof.
  intros genId isoNow [fh [objs0 h] clk] formData Hfh Htr objs newObj w' objs'.
  cbn in Hfh, objs, newObj. subst fh.
  assert (Hne : objs ++ [newObj] <> []) by (destruct objs; discriminate).
  assert (Hrun : saveObjective genId isoNow formData (mkWorld true (mkData objs0 h) clk)
                 = Return tt w').
  { subst w'. unfold exec.
    destruct (saveObjective genId isoNow formData _) eqn:E; [now destruct a|].
    exfalso. revert E. unfold saveObjective, bind, gets; cbn. rewrite Htr.
    unfold modify_objectives, saveToFile, updateDashboardCharts, renderObjectives, ret; cbn.
    fold objs. fold newObj.
    rewrite (autoBalanceObjectiveWeights_run _ _ _ _ Hne).
    rewrite addHistoryEntry_run; cbn. rewrite recordProgressSnapshot_run. discriminate. }
  split; [unfold throws; now rewrite Hrun|].
  revert Hrun. unfold saveObjective, bind, gets; cbn. rewrite Htr.
  unfold modify_objectives, saveToFile, updateDashboardCharts, renderObjectives, ret; cbn.
  fold objs. fold newObj.
  rewrite (autoBalanceObjectiveWeights_run _ _ _ _ Hne).
  rewrite addHistoryEntry_run; cbn. rewrite recordProgressSnapshot_run; cbn.
  rewrite is_nil_imap. destruct (is_nil (objs ++ [newObj])) eqn:Hnil;
    [destruct objs; discriminate|].
  intros [= Hw']. subst objs'. rewrite <- Hw'. cbn.
  assert (Hw : map weight
                 (imap (fun index obj =>
                          set_weight
                            (share (100 / Z.of_nat (length (objs ++ [newObj])))
                               (100 - 100 / Z.of_nat (length (objs ++ [newObj]))
                                      * Z.of_nat (length (objs ++ [newObj]))) index) obj)
                    (objs ++ [newObj]))
               = split_evenly 100 (S (length objs))).
  { rewrite (imap_weights weight set_weight); [|reflexivity].
    rewrite share_eq_split. f_equal. rewrite length_app. simpl. lia. }
  split; [apply (imap_frame set_weight); reflexivity|].
  split; [exact Hw|].
  split; [rewrite Hw; apply Zsum_split_evenly; lia|].
  eexists (mkHistoryEntry _ _ _ _ _ _ _ _), (snapshot_entry genId isoNow _).
  repeat (split; [reflexivity|]). reflexivity.
Qed.

Lemma Zsum_filter_others {A : Type} (getid : A -> string) (get : A -> Z)
    (l : list A) (editedId : string) (x : A) :
  NoDup (map getid l) ->
  List.find (fun y => String.eqb (getid y) editedId) l = Some x ->
  Zsum (map get (List.filter (is_other_than getid editedId) l))
  = Zsum (map get l) - get x.
Proof.
  induction l as [|o l IH]; simpl; [discriminate|].
  intros Hnd Hfind. apply NoDup_cons in Hnd as [Ho Hnd].
  unfold is_other_than at 1.
  destruct (String.eqb_spec (getid o) editedId) as [E|NE]; simpl.
  - injection Hfind as <-.
    rewrite (filter_others_all getid editedId l); [lia|].
    rewrite <- E. now rewrite <- list_elem_of_In.
  - rewrite (IH Hnd Hfind). lia.
Qed.

(** X5.  A confirmed [deleteObjective] of an existing id removes the
    Objective (with all its Key Results) and nothing else: the remaining
    Objectives keep their order and all their fields, so the weights are
    not rebalanced and their sum drops by the weight of the deleted one.
    The log gains one [deleted] entry for the Objective, none for its Key
    Results, and then a progress snapshot if an Objective remains.  When
    the confirmation is declined nothing changes. *)
Theorem deleteObjective_existing :
  forall (genId isoNow : nat -> string) (w : World) (objectiveId : string) (obj : Objective),
    List.find (fun o => String.eqb (id o) objectiveId) (objectives (data w)) = Some obj ->
    NoDup (map id (objectives (data w))) ->
    let objs := objectives (data w) in
    let w' := exec (deleteObjective genId isoNow true objectiveId) w in
    let objs' := objectives (data w') in
    throws (deleteObjective genId isoNow true objectiveId) w = false /\
    objs' = List.filter (is_other_than id objectiveId) objs /\
    length objs' = (length objs - 1)%nat /\
    Zsum (map weight objs') = Zsum (map weight objs) - weight obj /\
    (exists deleted,
        h_type deleted = "deleted" /\ h_itemType deleted = "objective" /\
        h_itemId deleted = objectiveId /\ h_itemTitle deleted = title obj /\
        (objs' = [] -> history (data w') = unshift_capped deleted (history (data w))) /\
        (objs' <> [] ->
           exists snap, h_type snap = "progress-snapshot" /\
             history (data w')
             = unshift_capped snap (unshift_capped deleted (history (data w))))) /\
    exec (deleteObjective genId isoNow false objectiveId) w = w.
Proof.
  intros genId isoNow [fh [objs0 h] clk] objectiveId obj Hfind Hnd objs w' objs'.
  cbn in Hfind, Hnd, objs.
  assert (Hrun : deleteObjective genId isoNow true objectiveId
                   (mkWorld fh (mkData objs0 h) clk) = Return tt w').
  { subst w'. unfold exec.
    destruct (deleteObjective genId isoNow true objectiveId _) eqn:E; [now destruct a|].
    exfalso. revert E. unfold deleteObjective, bind, get_objectives, gets; cbn.
    rewrite Hfind. rewrite addHistoryEntry_run; cbn.
    unfold saveToFile, updateDashboardCharts, renderObjectives, ret; cbn.
    rewrite recordProgressSnapshot_run. discriminate. }
  split; [unfold throws; now rewrite Hrun|].
  revert Hrun. unfold deleteObjective, bind, get_objectives, gets; cbn.
  rewrite Hfind. rewrite addHistoryEntry_run; cbn.
  unfold saveToFile, updateDashboardCharts, renderObjectives, ret; cbn.
  rewrite recordProgressSnapshot_run; cbn. fold objs.
  change (fun obj0 : Objective => negb (String.eqb (id obj0) objectiveId))
    with (is_other_than id objectiveId).
  intros [= Hw'].
  assert (Hobjs : objs' = List.filter (is_other_than id objectiveId) objs).
  { subst objs'. rewrite <- Hw'. destruct (is_nil _); reflexivity. }
  split; [exact Hobjs|].
  split; [rewrite Hobjs; apply (length_others id objectiveId objs obj Hnd Hfind)|].
  split; [rewrite Hobjs; now apply (Zsum_filter_others id weight)|].
  split; [|reflexivity].
  eexists (mkHistoryEntry _ _ _ _ _ _ _ _).
  do 4 (split; [reflexivity|]).
  rewrite Hobjs. split.
  - intros Hnil. rewrite <- Hw', Hnil. reflexivity.
  - intros Hne. exists (snapshot_entry genId isoNow
                          (mkWorld fh
                             (mkData (List.filter (is_other_than id objectiveId) objs)
                                (unshift_capped
                                   (mkHistoryEntry (genId clk) (isoNow (S clk)) "deleted"
                                      "objective" objectiveId (title obj) Deleted
                                      (Some (group obj))) h))
                             (S (S clk)))).
    split; [reflexivity|]. rewrite <- Hw'.
    destruct (List.filter (is_other_than id objectiveId) objs); [contradiction|reflexivity].
Qed.

Lemma mutate_first_twice {A : Type} (p : A -> bool) (f g : A -> A) (l : list A) :
  (forall x, p (f x) = p x) ->
  mutate_first p g (mutate_first p f l) = mutate_first p (fun x => g (f x)) l.
Proof.
  intros Hp. induction l as [|x l IH]; simpl; [reflexivity|].
  destruct (p x) eqn:E; simpl.
  - now rewrite Hp, E.
  - now rewrite E, IH.
Qed.

Lemma autoBalanceKRWeights_run (fh : bool) (objs : list Objective) (h : list HistoryEntry)
    (clk : nat) (objectiveId : string) (obj : Objective) (krs : list KeyResult) :
  List.find (fun o => String.eqb (id o) objectiveId) objs = Some obj ->
  keyResults obj = Some krs -> krs <> [] ->
  autoBalanceKRWeights objectiveId (mkWorld fh (mkData objs h) clk)
  = Return tt
      (mkWorld fh
         (mkData
            (mutate_first (fun o => String.eqb (id o) objectiveId)
               (set_keyResults
                  (Some (imap (fun index kr =>
                                 set_kr_weight
                                   (share (100 / Z.of_nat (length krs))
                                      (100 - 100 / Z.of_nat (length krs)
                                             * Z.of_nat (length krs)) index) kr) krs)))
               objs) h) clk).
Proof.
  intros Hobj Hkrs Hne. unfold autoBalanceKRWeights, bind, get_objectives, gets; cbn.
  rewrite Hobj, Hkrs. destruct krs; [contradiction | reflexivity].
Qed.

(** X6.  Adding a Key Result to an existing Objective appends it after the
    Objective's Key Results (an absent [keyResults] array counts as empty),
    which keep their order and everything but their weight; the new Key
    Result gets the generated id, [current = 0] and the date part of the
    current time as [createdAt]; the Key Result weights of that Objective
    are the equal split of 100 and sum to 100; the log gains a [created]
    entry for the new id and then the progress snapshot. *)
Theorem saveKeyResult_add :
  forall (genId isoNow : nat -> string) (w : World) (objectiveId title : string)
         (target : Z) (startDate targetDate : string) (weight : Z)
         (status confidence lastCheckin evidence comments : string)
         (editId : option string) (objective : Objective),
    List.find (fun o => String.eqb (id o) objectiveId) (objectives (data w))
      = Some objective ->
    truthy editId = None ->
    let krs := default [] (keyResults objective) in
    let newKr :=
      mkKeyResult (genId (S (clock w))) title target 0 startDate targetDate 0 status
        confidence lastCheckin evidence comments (split_T_0 (isoNow (clock w))) in
    let c := saveKeyResult genId isoNow objectiveId title target startDate targetDate
               weight status confidence lastCheckin evidence comments editId in
    let w' := exec c w in
    throws c w = false /\
    (exists krs',
        keyResults_of objectiveId w' = Some krs' /\
        map (set_kr_weight 0) krs' = map (set_kr_weight 0) (krs ++ [newKr]) /\
        map kr_weight krs' = split_evenly 100 (S (length krs)) /\
        Zsum (map kr_weight krs') = 100) /\
    map id (objectives (data w')) = map id (objectives (data w)) /\
    exists created snap,
      h_type created = "created" /\ h_itemType created = "keyresult" /\
      h_itemId created = kr_id newKr /\ h_itemTitle created = title /\
      h_group created = Some (group objective) /\
      h_type snap = "progress-snapshot" /\
      history (data w') = unshift_capped snap (unshift_capped created (history (data w))).
Proof.
  intros genId isoNow [fh [objs h] clk] objectiveId title target startDate targetDate
    weight status confidence lastCheckin evidence comments editId objective
    Hobj Htr krs newKr c w'.
  cbn in Hobj, newKr.
  assert (Hoid : (id objective =? objectiveId)%string = true)
    by (apply find_some in Hobj; apply Hobj).
  set (p := fun o : Objective => String.eqb (id o) objectiveId) in *.
  set (f1 := set_keyResults (Some krs)).
  set (f2 := fun o : Objective =>
               set_keyResults (Some (default [] (keyResults o) ++ [newKr])) o).
  set (objs2 := mutate_first p f2 (mutate_first p f1 objs)).
  assert (Hobjs2 : objs2 = mutate_first p (fun o => f2 (f1 o)) objs).
  { apply mutate_first_twice. reflexivity. }
  assert (Hfind2 : List.find p objs2 = Some (f2 (f1 objective))).
  { rewrite Hobjs2.
    apply (find_mutate_first p (fun o => f2 (f1 o)) objs objective Hobj Hoid). }
  assert (Hne : krs ++ [newKr] <> []) by (destruct krs; discriminate).
  pose proof (fun hh cc => autoBalanceKRWeights_run fh objs2 hh cc objectiveId
                             (f2 (f1 objective)) (krs ++ [newKr]) Hfind2 eq_refl Hne)
    as Hbal.
  set (g := fun (index : nat) (kr : KeyResult) =>
              set_kr_weight
                (share (100 / Z.of_nat (length (krs ++ [newKr])))
                   (100 - 100 / Z.of_nat (length (krs ++ [newKr]))
                          * Z.of_nat (length (krs ++ [newKr]))) index) kr) in *.
  set (objs3 := mutate_first p (set_keyResults (Some (imap g (krs ++ [newKr])))) objs2)
    in *.
  assert (Hrun : c (mkWorld fh (mkData objs h) clk)
                 = Return tt
                     (exec (recordProgressSnapshot genId isoNow)
                        (mkWorld fh
                           (mkData objs3
                              (unshift_capped
                                 (mkHistoryEntry (genId (S (S clk))) (isoNow (S (S (S clk))))
                                    "created" "keyresult" (genId (S clk)) title Created
                                    (Some (group objective))) h))
                           (S (S (S (S clk))))))).
  { subst c. unfold saveKeyResult, bind, get_objectives, gets; cbn.
    fold p. rewrite Hobj. fold krs. rewrite Htr.
    unfold modify_objective, modify_objectives, saveToFile, updateDashboardCharts,
      renderObjectives, ret; cbn.
    fold p. fold f1. fold newKr. fold f2. fold objs2.
    rewrite Hbal. rewrite addHistoryEntry_run; cbn.
    now rewrite recordProgressSnapshot_returns. }
  subst w'. unfold throws, exec at 1 2 3. rewrite Hrun.
  split; [reflexivity|].
  assert (Hfind3 : List.find p objs3
                   = Some (set_keyResults (Some (imap g (krs ++ [newKr])))
                             (f2 (f1 objective)))).
  { apply find_mutate_first; [exact Hfind2 | exact Hoid]. }
  assert (Hw : map kr_weight (imap g (krs ++ [newKr])) = split_evenly 100 (S (length krs))).
  { subst g. rewrite (imap_weights kr_weight set_kr_weight); [|reflexivity].
    rewrite share_eq_split. f_equal. rewrite length_app. simpl. lia. }
  split.
  { exists (imap g (krs ++ [newKr])). split.
    - unfold keyResults_of. rewrite objectives_recordProgressSnapshot. cbn.
      fold p. now rewrite Hfind3.
    - split; [apply (imap_frame set_kr_weight); reflexivity|].
      split; [exact Hw|]. rewrite Hw. apply Zsum_split_evenly. lia. }
  split.
  { rewrite objectives_recordProgressSnapshot. cbn. subst objs3. rewrite Hobjs2.
    rewrite !(map_getid_mutate_first id) by reflexivity. reflexivity. }
  eexists (mkHistoryEntry _ _ _ _ _ _ _ _), (snapshot_entry genId isoNow _).
  do 6 (split; [reflexivity|]).
  rewrite history_recordProgressSnapshot. cbn.
  destruct (is_nil objs3) eqn:Hnil; [|reflexivity].
  destruct objs3; [discriminate Hfind3 | discriminate Hnil].
Qed.

(** ** Saving without a file, editing, deleting a Key Result *)

(** X7.  Without an open file [saveObjective] only alerts: whatever the
    form holds, a new Objective or an edit, it returns with the Objectives,
    the log and the environment untouched. *)
Theorem saveObjective_requires_file :
  forall (genId isoNow : nat -> string) (w : World) (formData : ObjectiveForm),
    fileHandle w = false ->
    saveObjective genId isoNow formData w = Return tt w.
Proof.
  intros genId isoNow w formData Hfh.
  unfold saveObjective, bind, gets. rewrite Hfh. reflexivity.
Qed.


(** X9.  [deleteKR] of an existing Key Result (ids distinct) removes it
    from its Objective and nothing else: the Key Results that remain keep
    their order and all their fields, so their weights are not rebalanced
    and their sum drops by the weight of the deleted one; the Objectives
    keep their ids; the log gains one [deleted] entry for the Key Result
    and then the progress snapshot. *)
Theorem deleteKR_existing :
  forall (genId isoNow : nat -> string) (w : World) (objectiveId krId : string)
         (objective : Objective) (krs : list KeyResult) (kr : KeyResult),
    List.find (fun o => String.eqb (id o) objectiveId) (objectives (data w))
      = Some objective ->
    keyResults objective = Some krs ->
    List.find (fun k => String.eqb (kr_id k) krId) krs = Some kr ->
    NoDup (map kr_id krs) ->
    let c := deleteKR genId isoNow objectiveId krId in
    let w' := exec c w in
    let krs' := List.filter (is_other_than kr_id krId) krs in
    throws c w = false /\
    keyResults_of objectiveId w' = Some krs' /\
    length krs' = (length krs - 1)%nat /\
    Zsum (map kr_weight krs') = Zsum (map kr_weight krs) - kr_weight kr /\
    map id (objectives (data w')) = map id (objectives (data w)) /\
    exists deleted snap,
      h_type deleted = "deleted" /\ h_itemType deleted = "keyresult" /\
      h_itemId deleted = krId /\ h_itemTitle deleted = kr_title kr /\
      h_group deleted = Some (group objective) /\
      h_type snap = "progress-snapshot" /\
      history (data w') = unshift_capped snap (unshift_capped deleted (history (data w))).
Proof.
  intros genId isoNow [fh [objs h] clk] objectiveId krId objective krs kr
    Hobj Hkrs Hkr Hnd c w' krs'.
  cbn in Hobj.
  assert (Hoid : (id objective =? objectiveId)%string = true)
    by (apply find_some in Hobj; apply Hobj).
  set (p := fun o : Objective => String.eqb (id o) objectiveId) in *.
  set (objs1 := mutate_first p (set_keyResults (Some krs')) objs).
  set (entry := mkHistoryEntry (genId clk) (isoNow (S clk)) "deleted" "keyresult" krId
                  (kr_title kr) Deleted (Some (group objective))).
  set (w1 := mkWorld fh (mkData objs1 (unshift_capped entry h)) (S (S clk))).
  assert (Hrun : c (mkWorld fh (mkData objs h) clk)
                 = Return tt (exec (recordProgressSnapshot genId isoNow) w1)).
  { subst c. unfold deleteKR, bind, get_objectives, gets; cbn.
    fold p. rewrite Hobj, Hkrs, Hkr. rewrite addHistoryEntry_run; cbn.
    unfold modify_objective, modify_objectives, saveToFile, updateDashboardCharts,
      renderObjectives, ret; cbn.
    now rewrite recordProgressSnapshot_returns. }
  assert (Hfind1 : List.find p objs1 = Some (set_keyResults (Some krs') objective)).
  { apply find_mutate_first; [exact Hobj | exact Hoid]. }
  subst w'. unfold throws, exec at 1 2 3. rewrite Hrun.
  split; [reflexivity|].
  split.
  { unfold keyResults_of. rewrite objectives_recordProgressSnapshot. cbn.
    fold p. now rewrite Hfind1. }
  split; [apply (length_others kr_id krId krs kr Hnd Hkr)|].
  split; [now apply (Zsum_filter_others kr_id kr_weight)|].
  split.
  { rewrite objectives_recordProgressSnapshot. cbn. unfold objs1.
    now rewrite (map_getid_mutate_first id) by reflexivity. }
  exists entry, (snapshot_entry genId isoNow w1).
  do 6 (split; [reflexivity|]).
  rewrite history_recordProgressSnapshot. cbn.
  destruct (is_nil objs1) eqn:Hnil; [|reflexivity].
  destruct objs1; [discriminate Hfind1 | discriminate Hnil].
Qed.

(** ** Colours and outlines *)





(** ** The further theorems at concrete Documents *)

(** X1 along the creation of an Objective and of a Key Result. *)
Lemma history_append_only_witness :
  exists new,
    (length new <= 2 * 2)%nat /\
    history (data world_kr) = take 1000 (new ++ history (data empty_world)).
Proof.
  apply (history_append_only demo_genId demo_isoNow
           [OpSaveObjective (demo_form None "Ship" 100); demo_add_kr "id1" "Tests" 100]
           empty_world).
  simpl. lia.
Defined.

(** X2 along the creation of three Objectives. *)
Lemma history_cap_invariant_witness :
  (length (history (data world_three)) <= 1000)%nat.
Proof.
  apply (history_cap_invariant demo_genId demo_isoNow
           [OpSaveObjective (demo_form None "Ship" 100);
            OpSaveObjective (demo_form None "Hire" 100);
            OpSaveObjective (demo_form None "Learn" 100)] empty_world).
  simpl. lia.
Defined.

(** X3 at a Key Result at 23/40, and at Objectives with two Key Results
    at their targets and at 0. *)
Lemma progress_bounds_witness :
  (exists r, krProgress 23 40 = ofZ r /\ 0 <= r <= 100 /\
             (23 = 40 -> r = 100) /\ (23 = 0 -> r = 0)) /\
  calculateProgress
    (demo_objective "o1" 100 (Some [demo_kr "k1" 7 7; demo_kr "k2" 30 30])) = ofZ 100 /\
  calculateProgress
    (demo_objective "o1" 100 (Some [demo_kr "k1" 0 7; demo_kr "k2" 0 30])) = ofZ 0.
Proof.
  destruct progress_bounds as (Hkr & Hdone & Hzero).
  split; [|split].
  - apply (Hkr 23 40); lia.
  - apply (Hdone _ [demo_kr "k1" 7 7; demo_kr "k2" 30 30]).
    + reflexivity.
    + discriminate.
    + simpl. lia.
    + repeat constructor; simpl; lia.
  - apply (Hzero _ [demo_kr "k1" 0 7; demo_kr "k2" 0 30]).
    + reflexivity.
    + repeat constructor; simpl; lia.
Defined.

(** X4 at the creation of a second Objective. *)
Lemma saveObjective_add_witness :
  let w' := exec (saveObjective demo_genId demo_isoNow (demo_form None "Hire" 100)) world_one in
  map weight (objectives (data w')) = split_evenly 100 (S (length (objectives (data world_one)))) /\
  Zsum (map weight (objectives (data w'))) = 100.
Proof.
  destruct (saveObjective_add demo_genId demo_isoNow world_one (demo_form None "Hire" 100))
    as (_ & _ & Hw & Hs & _).
  - vm_compute. reflexivity.
  - reflexivity.
  - split; [exact Hw | exact Hs].
Defined.

(** X5 at the deletion of the first of three Objectives. *)
Lemma deleteObjective_existing_witness :
  let w' := exec (deleteObjective demo_genId demo_isoNow true "a") world_unbalanced in
  objectives (data w')
  = List.filter (is_other_than id "a") (objectives (data world_unbalanced)) /\
  Zsum (map weight (objectives (data w')))
  = Zsum (map weight (objectives (data world_unbalanced))) - 10.
Proof.
  destruct (deleteObjective_existing demo_genId demo_isoNow world_unbalanced "a"
              (demo_objective "a" 10 (Some [])))
    as (_ & Hobjs & _ & Hs & _).
  - reflexivity.
  - apply (bool_decide_unpack _). vm_compute. exact I.
  - split; [exact Hobjs | exact Hs].
Defined.

(** X6 at the first Key Result of an Objective. *)
Lemma saveKeyResult_add_witness :
  let w' := exec (saveKeyResult demo_genId demo_isoNow "a" "Tests" 25 "2026-01-01"
                    "2026-03-31" 100 "on-track" "Medium" "" "" "" None) world_unbalanced in
  map id (objectives (data w')) = map id (objectives (data world_unbalanced)) /\
  exists krs',
    keyResults_of "a" w' = Some krs' /\ Zsum (map kr_weight krs') = 100.
Proof.
  destruct (saveKeyResult_add demo_genId demo_isoNow world_unbalanced "a" "Tests" 25
              "2026-01-01" "2026-03-31" 100 "on-track" "Medium" "" "" "" None
              (demo_objective "a" 10 (Some [])))
    as (_ & (krs' & Hk & _ & _ & Hs) & Hids & _).
  - reflexivity.
  - reflexivity.
  - split; [exact Hids|]. exists krs'. split; [exact Hk | exact Hs].
Defined.

(** X7 at a new Objective submitted before any file is open. *)
Lemma saveObjective_requires_file_witness :
  saveObjective demo_genId demo_isoNow (demo_form None "Ship" 100)
    (mkWorld false (mkData [] []) 0)
  = Return tt (mkWorld false (mkData [] []) 0).
Proof.
  apply saveObjective_requires_file. reflexivity.
Defined.


(** X9 at the deletion of the first of two Key Results. *)
Lemma deleteKR_existing_witness :
  let w := mkWorld true
             (mkData [demo_objective "o1" 100
                        (Some [demo_kr "k1" 5 10; demo_kr "k2" 0 10])] []) 0 in
  keyResults_of "o1" (exec (deleteKR demo_genId demo_isoNow "o1" "k1") w)
  = Some (List.filter (is_other_than kr_id "k1") [demo_kr "k1" 5 10; demo_kr "k2" 0 10]).
Proof.
  destruct (deleteKR_existing demo_genId demo_isoNow
              (mkWorld true
                 (mkData [demo_objective "o1" 100
                            (Some [demo_kr "k1" 5 10; demo_kr "k2" 0 10])] []) 0)
              "o1" "k1"
              (demo_objective "o1" 100 (Some [demo_kr "k1" 5 10; demo_kr "k2" 0 10]))
              [demo_kr "k1" 5 10; demo_kr "k2" 0 10] (demo_kr "k1" 5 10))
    as (_ & Hk & _).
  - reflexivity.
  - reflexivity.
  - reflexivity.
  - apply (bool_decide_unpack _). vm_compute. exact I.
  - exact Hk.
Defined.
